(** * The train query engine of [main.go]

    [FindTrains] validates a query (two station identifiers given as text and
    a sort criterion), reads the dataset from [data.json], keeps the records
    whose two stations match, sorts them with [sort.SliceStable] and returns
    at most three of them.

    The embedding keeps the shape of the Go code: package constants and
    variables are definitions of the same name, [FindTrains],
    [readDataFromJSON] and [sortTrainsByAscending] are written in a small
    state monad over a [World] (the files the program can open, and the log
    of what it opened, read and printed), and the standard-library calls
    ([strconv.Atoi], [time.Time.Before], [sort.SliceStable], [os.Open],
    [ioutil.ReadAll], [json.Unmarshal]) are modelled next to their use. *)

From Stdlib Require Import ZArith QArith Ascii ZifyBool.
From stdpp Require Import gmap strings list sorting.

Local Open Scope Z_scope.

(** ** Package constants *)

Definition dataPath : string := "data.json".
Definition priceCriteria : string := "price".
Definition arrivalTimeCriteria : string := "arrival-time".
Definition departureTimeCriteria : string := "departure-time".
Definition numOfReturnTrains : Z := 3.
Definition minIDNumber : Z := 1.
Definition minLen : Z := 1.

(** ** Errors

    The five package-level values made with [errors.New]; [Error] is the
    method of the [error] interface, the text the tests compare. A nil
    [error] is [None]. *)

Inductive error : Set :=
  | errCriteria
  | errEmptyDepStation
  | errEmptyArrStation
  | errBadDepStation
  | errBadArrStation.

Definition Error (e : error) : string :=
  match e with
  | errCriteria => "unsupported criteria"
  | errEmptyDepStation => "empty departure station"
  | errEmptyArrStation => "empty arrival station"
  | errBadDepStation => "bad departure station input"
  | errBadArrStation => "bad arrival station input"
  end.

Definition criteriaOfSort : gmap string string :=
  <["price" := "price"]>
    (<["arrival-time" := "arrival-time"]>
       (<["departure-time" := "departure-time"]> ∅)).

(** ** Records *)

(** [time.Time] as the instant it denotes: seconds since year 1 and the
    nanoseconds within that second. The values of this program come from
    [time.Parse] or are zero values, so none carries a monotonic clock
    reading, and [Before] compares the two fields. *)
Record Time : Set := mkTime { sec : Z; nsec : Z }.

Definition Before (t u : Time) : bool :=
  (sec t <? sec u) || ((sec t =? sec u) && (nsec t <? nsec u)).

(** [Price] is a [float32] decoded from a JSON number: JSON has no NaN and no
    infinity, so the field holds a finite binary fraction, kept here as the
    rational it denotes. [float32_lt] is Go's [<] on such values. *)
Definition float32 : Set := Q.

Definition float32_lt (x y : float32) : bool :=
  Qnum x * Zpos (Qden y) <? Qnum y * Zpos (Qden x).

Record Train : Set := mkTrain {
  TrainID : Z;
  DepartureStationID : Z;
  ArrivalStationID : Z;
  Price : float32;
  ArrivalTime : Time;
  DepartureTime : Time
}.

(** A [Trains] value is a slice; where the code tells nil from an empty
    slice (the results of [FindTrains]) the value is an [option Trains] and
    nil is [None]. *)
Definition Trains : Set := list Train.

(** ** strconv.Atoi

    [ParseUint] in base 10 for 64 bits: every byte must be a decimal digit,
    and the value must stay below 2^64. [ParseInt] takes one leading sign off
    and checks the range of [int]. [Atoi] answers as [ParseInt] does (its
    short-string path skips the range checks that cannot fail there). *)

Inductive NumError : Set := ErrSyntax | ErrRange.

Definition maxUint64 : Z := 2 ^ 64 - 1.

Definition digitOf (c : ascii) : option Z :=
  let b := Z.of_N (N_of_ascii c) in
  if (48 <=? b) && (b <=? 57) then Some (b - 48) else None.

Fixpoint ParseUintFrom (n : Z) (s : string) : Z + NumError :=
  match s with
  | EmptyString => inl n
  | String c rest =>
      match digitOf c with
      | None => inr ErrSyntax
      | Some d =>
          if maxUint64 / 10 + 1 <=? n then inr ErrRange
          else
            let n1 := n * 10 + d in
            if maxUint64 <? n1 then inr ErrRange else ParseUintFrom n1 rest
      end
  end.

Definition ParseUint (s : string) : Z + NumError :=
  match s with
  | EmptyString => inr ErrSyntax
  | _ => ParseUintFrom 0 s
  end.

Definition ParseInt (s : string) : Z + NumError :=
  match s with
  | EmptyString => inr ErrSyntax
  | String c rest =>
      let neg := Ascii.eqb c "-"%char in
      let body := if Ascii.eqb c "+"%char || neg then rest else s in
      match ParseUint body with
      | inr ErrSyntax => inr ErrSyntax
      | inr ErrRange => inr ErrRange
      | inl un =>
          let cutoff := 2 ^ 63 in
          if negb neg && (cutoff <=? un) then inr ErrRange
          else if neg && (cutoff <? un) then inr ErrRange
          else inl (if neg then - un else un)
      end
  end.

Definition Atoi (s : string) : Z + NumError := ParseInt s.

(** [len(s)] of a Go string: its number of bytes. *)
Definition len (s : string) : Z := Z.of_nat (String.length s).

(** ** sort.SliceStable

    The library sorts a slice of at most twenty elements by insertion
    ([insertionSort]: the element at index [i] moves left while it is [less]
    than its left neighbour) and merges longer slices from such blocks.
    [sink] is the inner loop over the part already sorted, nearest element
    first; [insertionSort] is the outer loop. [SliceStable] is modelled by
    it for every length: [stable_sort_unique] below shows that a strict weak
    order leaves a stable sort no other possible result. *)

Section SliceStable.
Context {A : Type} (less : A -> A -> bool).

Fixpoint sink (x : A) (before : list A) : list A :=
  match before with
  | [] => [x]
  | y :: rest => if less x y then y :: sink x rest else x :: before
  end.

Definition insertionSort (data : list A) : list A :=
  reverse (foldl (fun sorted x => sink x sorted) [] data).

Definition SliceStable (data : list A) : list A := insertionSort data.

(** Two elements tie when neither is less than the other. *)
Definition tie (x y : A) : bool := negb (less x y) && negb (less y x).
End SliceStable.

(** ** The world and its monad

    A [World] holds the files that can be opened, by path, for every other
    path the reason the operating system gives when it is asked to open it
    (no such file or directory, permission denied, ...), and the log of
    what the program did to the outside: the files it tried to open, the
    reads, and the lines it printed. An action takes a world and returns its
    value with the world after it. *)

Inductive Event : Set :=
  | EvOpen (path : string)
  | EvReadAll (path : string)
  | EvPrintln (line : string).

Record World : Type := mkWorld {
  files : gmap string (list Byte.byte);
  openError : string -> string;
  log : list Event
}.

Definition IO (A : Type) : Type := World -> A * World.

Definition ret {A} (a : A) : IO A := fun w => (a, w).

Definition bind {A B} (m : IO A) (k : A -> IO B) : IO B :=
  fun w => let (a, w') := m w in k a w'.

Notation "x <- m ;; k" := (bind m (fun x => k))
  (at level 100, m at next level, right associativity).

Definition emit (e : Event) : IO unit :=
  fun w => (tt, mkWorld (files w) (openError w) (log w ++ [e])).

(** [fmt.Println] of one line. *)
Definition Println (line : string) : IO unit := emit (EvPrintln line).

(** [os.Open]: an open file is named by its path, a nil [*os.File] is
    [None]; the error, when there is one, is given by its text, which for
    the [*PathError] of [os.Open] is the operation, the path and the reason
    of the operating system. *)
Definition osOpen (path : string) : IO (option string * option string) :=
  _ <- emit (EvOpen path) ;;
  fun w =>
    match files w !! path with
    | Some _ => ((Some path, None), w)
    | None =>
        ((None, Some ("open " +:+ path +:+ ": " +:+ openError w path)), w)
    end.

(** [ioutil.ReadAll]: on a nil file the read fails at once and no byte is
    returned. *)
Definition ReadAll (f : option string) : IO (list Byte.byte * option string) :=
  match f with
  | None => ret ([], Some "invalid argument")
  | Some path =>
      _ <- emit (EvReadAll path) ;;
      fun w => ((default [] (files w !! path), None), w)
  end.

(** [jsonFile.Close], deferred in [readDataFromJSON]: it only answers with
    an error on a nil file. *)
Definition Close (f : option string) : IO (option string) :=
  ret (match f with None => Some "invalid argument" | Some _ => None end).

Section QueryEngine.

(** [json.Unmarshal(byteValue, &d)] on an input that is not empty, with
    the [UnmarshalJSON] methods of [Train] and [CustomTime]: the records
    it leaves in [d]. Decoding is not part of the query engine; it is
    taken as given. *)
Variable decodeTrains : list Byte.byte -> Trains -> Trains.

(** On an empty input [json.Unmarshal] reports an unexpected end of input
    before it touches [d]. The caller drops the error. *)
Definition jsonUnmarshal (data : list Byte.byte) (d : Trains) : Trains :=
  match data with
  | [] => d
  | _ => decodeTrains data d
  end.

Definition readDataFromJSON (path : string) : IO Trains :=
  let d : Trains := [] in
  opened <- osOpen path ;;
  let '(jsonFile, err) := opened in
  _ <- match err with
       | Some e => Println e
       | None => ret tt
       end ;;
  bytes <- ReadAll jsonFile ;;
  let '(byteValue, _) := bytes in
  let d := jsonUnmarshal byteValue d in
  _ <- Close jsonFile ;;
  ret d.

Definition sortTrainsByAscending (trains : Trains) (criteria : string)
  : IO Trains :=
  _ <- Println ("Sorting by " +:+ criteria) ;;
  ret (if String.eqb criteria priceCriteria then
         SliceStable (fun ti tj => float32_lt (Price ti) (Price tj)) trains
       else if String.eqb criteria departureTimeCriteria then
         SliceStable
           (fun ti tj => Before (DepartureTime ti) (DepartureTime tj)) trains
       else if String.eqb criteria arrivalTimeCriteria then
         SliceStable
           (fun ti tj => Before (ArrivalTime ti) (ArrivalTime tj)) trains
       else trains).

(** The loop of [FindTrains] over the dataset. *)
Definition matchingTrains (data : Trains) (departureStationID arrivalStationID : Z)
  : Trains :=
  foldl (fun trains v =>
           if (DepartureStationID v =? departureStationID)
              && (ArrivalStationID v =? arrivalStationID)
           then trains ++ [v] else trains)
        [] data.

Definition FindTrains (departureStation arrivalStation criteria : string)
  : IO (option Trains * option error) :=
  if len departureStation <? minLen then ret (None, Some errEmptyDepStation)
  else if len arrivalStation <? minLen then ret (None, Some errEmptyArrStation)
  else
    match Atoi departureStation with
    | inr _ => ret (None, Some errBadDepStation)
    | inl departureStationID =>
    if departureStationID <? minIDNumber then ret (None, Some errBadDepStation)
    else
    match Atoi arrivalStation with
    | inr _ => ret (None, Some errBadArrStation)
    | inl arrivalStationID =>
    if arrivalStationID <? minIDNumber then ret (None, Some errBadArrStation)
    else
    match criteriaOfSort !! criteria with
    | None => ret (None, Some errCriteria)
    | Some _ =>
        data <- readDataFromJSON dataPath ;;
        let trains := matchingTrains data departureStationID arrivalStationID in
        if Z.of_nat (length trains) <? minLen then ret (None, None)
        else
          trains <- sortTrainsByAscending trains criteria ;;
          if Z.of_nat (length trains) <? numOfReturnTrains
          then ret (Some trains, None)
          else ret (Some (take (Z.to_nat numOfReturnTrains) trains), None)
    end
    end
    end.

End QueryEngine.

(** * The vocabulary of the specification

    The specification speaks of texts that parse as an integer of at least
    1, of recognized criteria, of the first failing check, of matching
    records, and of the order and the ties of the field a criterion names.
    These definitions follow its words; the theorems relate them to the
    code. *)

(** "parses as an integer >= 1": the integer, when there is one. *)
Definition stationID (text : string) : option Z :=
  match Atoi text with
  | inl n => if 1 <=? n then Some n else None
  | inr _ => None
  end.

Definition recognizedCriteria : list string :=
  ["price"; "arrival-time"; "departure-time"].

Definition recognized (criterion : string) : bool :=
  bool_decide (criterion ∈ recognizedCriteria).

(** The five checks in their order, each with the error of its failure. *)
Definition validationChecks (departureText arrivalText criterion : string)
  : list (bool * error) :=
  [ (negb (String.eqb departureText ""), errEmptyDepStation);
    (negb (String.eqb arrivalText ""), errEmptyArrStation);
    (bool_decide (is_Some (stationID departureText)), errBadDepStation);
    (bool_decide (is_Some (stationID arrivalText)), errBadArrStation);
    (recognized criterion, errCriteria) ].

Fixpoint firstFailing (checks : list (bool * error)) : option error :=
  match checks with
  | [] => None
  | (passes, e) :: rest => if passes then firstFailing rest else Some e
  end.

(** A valid input, with the two identifiers it parses to. *)
Definition validQuery (departureText arrivalText criterion : string)
    (departureID arrivalID : Z) : Prop :=
  stationID departureText = Some departureID
  /\ stationID arrivalText = Some arrivalID
  /\ recognized criterion.

(** A record matches when both of its stations are the ones asked for. *)
Definition matches (departureID arrivalID : Z) (v : Train) : Prop :=
  DepartureStationID v = departureID /\ ArrivalStationID v = arrivalID.

Global Instance matches_dec departureID arrivalID v :
  Decision (matches departureID arrivalID v) :=
  and_dec (decide (DepartureStationID v = departureID))
          (decide (ArrivalStationID v = arrivalID)).

(** The dataset a query sees in a world: what the load returns there. *)
Definition dataset (decodeTrains : list Byte.byte -> Trains -> Trains)
    (w : World) : Trains :=
  (readDataFromJSON decodeTrains dataPath w).1.

(** The records of a result; a nil slice has none. *)
Definition elements (result : option Trains) : Trains := default [] result.

(** Chronological order of two instants. *)
Definition timeLe (t u : Time) : Prop :=
  sec t < sec u \/ (sec t = sec u /\ nsec t <= nsec u).

Definition timeEq (t u : Time) : bool :=
  (sec t =? sec u) && (nsec t =? nsec u).

(** Ascending order of the field named by the criterion. *)
Definition keyLe (criterion : string) (x y : Train) : Prop :=
  if String.eqb criterion "price" then (Price x <= Price y)%Q
  else if String.eqb criterion "departure-time"
       then timeLe (DepartureTime x) (DepartureTime y)
  else if String.eqb criterion "arrival-time"
       then timeLe (ArrivalTime x) (ArrivalTime y)
  else False.

(** Equal values of the field named by the criterion. *)
Definition sameKey (criterion : string) (x y : Train) : bool :=
  if String.eqb criterion "price" then Qeq_bool (Price x) (Price y)
  else if String.eqb criterion "departure-time"
       then timeEq (DepartureTime x) (DepartureTime y)
  else if String.eqb criterion "arrival-time"
       then timeEq (ArrivalTime x) (ArrivalTime y)
  else false.

(** The comparison [sortTrainsByAscending] hands to [sort.SliceStable]. *)
Definition lessBy (criteria : string) (ti tj : Train) : bool :=
  if String.eqb criteria priceCriteria then float32_lt (Price ti) (Price tj)
  else if String.eqb criteria departureTimeCriteria
       then Before (DepartureTime ti) (DepartureTime tj)
  else if String.eqb criteria arrivalTimeCriteria
       then Before (ArrivalTime ti) (ArrivalTime tj)
  else false.

(** The events a call adds to the log of the world it starts in. *)
Definition effects {A} (m : IO A) (w : World) : list Event :=
  drop (length (log w)) (log (m w).2).

(** ** A sample world

    Six records, four of them from station 1902 to station 1929, two of
    these with the same price and the same times; a decoder that finds
    these records in any file that is not empty; a world where [data.json]
    exists, and one where it does not. The examples below run on them. *)

Definition clock (hours minutes : Z) : Time :=
  mkTime (hours * 3600 + minutes * 60) 0.

Definition sampleTrains : Trains :=
  [ mkTrain 1141 1902 1929 (17677 # 100) (clock 12 15) (clock 16 48);
    mkTrain 5 1 2 (1 # 1) (clock 1 0) (clock 2 0);
    mkTrain 1177 1902 1929 (16465 # 100) (clock 10 25) (clock 16 36);
    mkTrain 978 1902 1929 (25853 # 100) (clock 4 15) (clock 13 10);
    mkTrain 1178 1902 1929 (16465 # 100) (clock 10 25) (clock 16 36);
    mkTrain 6 1902 2 (1 # 1) (clock 1 0) (clock 2 0) ].

Definition sampleDecode (data : list Byte.byte) (d : Trains) : Trains :=
  sampleTrains.

Definition sampleWorld : World :=
  mkWorld (<[dataPath := [Byte.x5b; Byte.x5d]]> ∅)
          (fun _ => "no such file or directory") [].

Definition noFileWorld : World :=
  mkWorld ∅ (fun _ => "no such file or directory") [].

(** A world where [data.json] exists and may not be read. *)
Definition lockedWorld : World :=
  mkWorld ∅ (fun _ => "permission denied") [].

(** * The rest of the program

    The decoding of a time field, the reading of the query from the
    terminal, the printing of the answer, and [main]. *)

(** ** strings.Trim

    The cut set of [CustomTime.UnmarshalJSON] is the raw string of a
    backslash and a double quote. Both are ASCII, so the library trims byte
    by byte: the trailing bytes of the set, then the leading ones. *)

Definition layout : string := "15:04:05".

Definition backslashChar : ascii := "092"%char.
Definition quoteChar : ascii := "034"%char.
Definition trimCutset : string := String backslashChar (String quoteChar "").

Fixpoint inCutset (cutset : string) (c : ascii) : bool :=
  match cutset with
  | EmptyString => false
  | String k rest => Ascii.eqb c k || inCutset rest c
  end.

Fixpoint TrimLeft (s cutset : string) : string :=
  match s with
  | EmptyString => EmptyString
  | String c rest => if inCutset cutset c then TrimLeft rest cutset else s
  end.

Fixpoint TrimRight (s cutset : string) : string :=
  match s with
  | EmptyString => EmptyString
  | String c rest =>
      match TrimRight rest cutset with
      | EmptyString => if inCutset cutset c then EmptyString else String c EmptyString
      | kept => String c kept
      end
  end.

Definition Trim (s cutset : string) : string :=
  TrimLeft (TrimRight s cutset) cutset.

(** ** CustomTime.UnmarshalJSON

    The receiver [*c] is passed in and the value it holds afterwards is
    returned with the error. [time.Parse] is taken as given. *)

Module CustomTime.
Section Decode.
Variable timeParse : string -> string -> Time + string.

Definition UnmarshalJSON (c : Time) (b : string) : Time * option string :=
  let s := Trim b trimCutset in
  if String.eqb s "null" || String.eqb s "" then (c, None)
  else
    match timeParse layout s with
    | inr err => (c, Some err)
    | inl t => (t, None)
    end.
End Decode.
End CustomTime.

(** ** The process

    [main] runs in a process: the bytes still to be read on the standard
    input, the bytes written on the standard output, and the world of the
    files. An action of a process returns a value, or panics ([None]), and
    leaves the process after it. *)

Record Process : Type := mkProcess {
  stdin : string;
  stdout : string;
  world : World
}.

Definition Proc (A : Type) : Type := Process -> option A * Process.

Definition retP {A} (a : A) : Proc A := fun p => (Some a, p).

Definition bindP {A B} (m : Proc A) (k : A -> Proc B) : Proc B :=
  fun p => match m p with
           | (Some a, p') => k a p'
           | (None, p') => (None, p')
           end.

Definition panic {A} : Proc A := fun p => (None, p).

Definition newline : string := String "010"%char "".

(** [fmt.Print] of one text, and [fmt.Println] of one line. *)
Definition PrintP (text : string) : Proc unit :=
  fun p => (Some tt, mkProcess (stdin p) (stdout p +:+ text) (world p)).

Definition PrintlnP (line : string) : Proc unit := PrintP (line +:+ newline).

(** The bytes the lines of a log of events put on the standard output. *)
Fixpoint printed (events : list Event) : string :=
  match events with
  | [] => ""
  | EvPrintln line :: rest => line +:+ newline +:+ printed rest
  | _ :: rest => printed rest
  end.

(** An action on the world, run in the process: what it prints goes to the
    standard output. *)
Definition runIO {A} (m : IO A) : Proc A :=
  fun p =>
    let (a, w) := m (world p) in
    (Some a, mkProcess (stdin p) (stdout p +:+ printed (effects m (world p))) w).

(** [ReadString] of a [bufio.Reader]: the bytes up to the first [delim], with
    it, or all the bytes left when there is none (the error it then
    returns is dropped by the caller); and the bytes after them. *)
Fixpoint splitAfter (delim : ascii) (input : string) : string * string :=
  match input with
  | EmptyString => (EmptyString, EmptyString)
  | String c rest =>
      if Ascii.eqb c delim then (String c EmptyString, rest)
      else let (line, after) := splitAfter delim rest in (String c line, after)
  end.

Definition ReadString (delim : ascii) : Proc string :=
  fun p =>
    let (line, after) := splitAfter delim (stdin p) in
    (Some line, mkProcess after (stdout p) (world p)).

(** The slice expression [s[0 : len(s)-1]]: it panics on the empty
    string, whose upper bound would be -1. *)
Definition withoutLast (s : string) : Proc string :=
  match s with
  | EmptyString => panic
  | _ => retP (String.substring 0 (String.length s - 1) s)
  end.

Module Query.
Record t : Set := mk {
  DepartureStationID : string;
  ArrivalStationID : string;
  Criteria : string
}.

Definition readUserParamsFromTerminal : Proc t :=
  bindP (PrintP "Enter departure station ID: ") (fun _ =>
  bindP (ReadString "010"%char) (fun line =>
  bindP (withoutLast line) (fun departure =>
  bindP (PrintP "Enter arrival station ID: ") (fun _ =>
  bindP (ReadString "010"%char) (fun line =>
  bindP (withoutLast line) (fun arrival =>
  bindP (PrintP "Enter sorting criteria: ") (fun _ =>
  bindP (ReadString "010"%char) (fun line =>
  bindP (withoutLast line) (fun criteria =>
  retP (mk departure arrival criteria)))))))))).
End Query.

Section Main.
Variable decodeTrains : list Byte.byte -> Trains -> Trains.

(** The text [fmt.Printf] gives for the verb [%+v] on a pointer to a
    record; the formatting of the library is taken as given. *)
Variable formatTrain : Train -> string.

Definition printTrain (t : Train) : Proc unit :=
  PrintP (formatTrain t +:+ newline).

Fixpoint printTrains (t : Trains) : Proc unit :=
  match t with
  | [] => retP tt
  | v :: rest => bindP (printTrain v) (fun _ => printTrains rest)
  end.

Definition printFindingResult (t : option Trains) : Proc unit :=
  if minLen <=? Z.of_nat (length (elements t)) then printTrains (elements t)
  else PrintlnP "Can't find trains on request. Please, try again.".

Definition main : Proc unit :=
  bindP Query.readUserParamsFromTerminal (fun query =>
  bindP (runIO (FindTrains decodeTrains
                  (Query.DepartureStationID query)
                  (Query.ArrivalStationID query)
                  (Query.Criteria query))) (fun answer =>
  let '(result, err) := answer in
  match err with
  | Some e => PrintP ("Error: " +:+ Error e +:+ newline)
  | None => printFindingResult result
  end)).
End Main.

(** The three prompts of [readUserParamsFromTerminal]. *)
Definition prompt1 : string := "Enter departure station ID: ".
Definition prompt2 : string := "Enter arrival station ID: ".
Definition prompt3 : string := "Enter sorting criteria: ".
Definition prompts : string := prompt1 +:+ prompt2 +:+ prompt3.

(** The lines [printFindingResult] prints for the records of a slice. *)
Fixpoint trainLines (formatTrain : Train -> string) (t : Trains) : string :=
  match t with
  | [] => ""
  | v :: rest => formatTrain v +:+ newline +:+ trainLines formatTrain rest
  end.

(** What [main] prints after a search: the error, the lines of the
    records, or that there is none. *)
Definition answerText (formatTrain : Train -> string)
    (answer : option Trains * option error) : string :=
  match answer.2 with
  | Some e => "Error: " +:+ Error e +:+ newline
  | None =>
      match elements answer.1 with
      | [] => "Can't find trains on request. Please, try again." +:+ newline
      | found => trainLines formatTrain found
      end
  end.

Definition carriageReturn : string := String "013"%char "".

Fixpoint noNewline (s : string) : bool :=
  match s with
  | EmptyString => true
  | String c rest => negb (Ascii.eqb c "010"%char) && noNewline rest
  end.

Fixpoint allDigits (s : string) : bool :=
  match s with
  | EmptyString => true
  | String c rest => bool_decide (is_Some (digitOf c)) && allDigits rest
  end.

(** The number a text of decimal digits denotes, after the digits [n]. *)
Fixpoint decimalFrom (n : Z) (s : string) : Z :=
  match s with
  | EmptyString => n
  | String c rest => decimalFrom (n * 10 + default 0 (digitOf c)) rest
  end.

Definition decimal (s : string) : Z := decimalFrom 0 s.

(** A text made of bytes of the cut set only. *)
Fixpoint allInCutset (cutset s : string) : bool :=
  match s with
  | EmptyString => true
  | String c rest => inCutset cutset c && allInCutset cutset rest
  end.

(** A sample formatter of records and a sample parser of times. *)
Definition sampleFormat (v : Train) : string :=
  if TrainID v =? 1177 then "train 1177"
  else if TrainID v =? 1178 then "train 1178"
  else "another train".

Definition sampleParse (l value : string) : Time + string :=
  if String.eqb value "10:25:00" then inl (clock 10 25) else inr "cannot parse".

(** * Facts about the model of [sort.SliceStable]

    [less] is a strict weak order: asymmetric, and its negation is
    transitive. Both hold of the three comparisons of
    [sortTrainsByAscending]. *)

Section SliceStableFacts.
Context {A : Type} (less : A -> A -> bool).
Hypothesis less_asym : forall x y, less x y = true -> less y x = false.
Hypothesis less_negtrans :
  forall x y z, less x y = false -> less y z = false -> less x z = false.

(** In the sorted part, kept nearest element first, no element is below
    one that follows it. *)
Local Abbreviation descending := (StronglySorted (fun a b => less a b = false)).
Local Abbreviation ascending := (StronglySorted (fun a b => less b a = false)).

Lemma sink_perm x before : sink less x before ≡ₚ x :: before.
Proof.
  induction before as [|y rest IH]; simpl; [done|].
  destruct (less x y); [|done].
  rewrite IH. apply Permutation_swap.
Qed.

Lemma sink_descending x before :
  descending before -> descending (sink less x before).
Proof.
  induction before as [|y rest IH]; simpl; intros Hs.
  - repeat constructor.
  - apply StronglySorted_cons in Hs as [Hy Hrest].
    destruct (less x y) eqn:Hxy.
    + apply StronglySorted_cons. split; [|by apply IH].
      rewrite sink_perm. constructor; [by apply less_asym | done].
    + apply StronglySorted_cons. split; [|by apply StronglySorted_cons].
      constructor; [done|].
      eapply Forall_impl; [exact Hy|]. intros z Hz. by eapply less_negtrans.
Qed.

Lemma foldl_sink_descending data sorted :
  descending sorted ->
  descending (foldl (fun sorted x => sink less x sorted) sorted data).
Proof.
  revert sorted. induction data as [|x data IH]; simpl; intros sorted Hs.
  - done.
  - by apply IH, sink_descending.
Qed.

Lemma foldl_sink_perm data sorted :
  foldl (fun sorted x => sink less x sorted) sorted data ≡ₚ data ++ sorted.
Proof.
  revert sorted. induction data as [|x data IH]; simpl; intros sorted.
  - done.
  - rewrite IH, sink_perm. by rewrite Permutation_middle.
Qed.

Lemma StronglySorted_reverse_flip (R : relation A) l :
  StronglySorted R l -> StronglySorted (flip R) (reverse l).
Proof.
  induction 1 as [|x l Hl IH Hx]; [constructor|].
  rewrite reverse_cons. apply StronglySorted_app. split_and!.
  - intros a b Ha Hb. apply list_elem_of_singleton in Hb as ->.
    rewrite elem_of_reverse in Ha. unfold flip.
    by eapply Forall_forall in Hx.
  - done.
  - repeat constructor.
Qed.

Lemma insertionSort_ascending data : ascending (insertionSort less data).
Proof.
  unfold insertionSort.
  apply (StronglySorted_reverse_flip (fun a b => less a b = false)).
  apply foldl_sink_descending. constructor.
Qed.

Lemma insertionSort_perm data : insertionSort less data ≡ₚ data.
Proof.
  unfold insertionSort.
  rewrite reverse_Permutation, foldl_sink_perm. by rewrite app_nil_r.
Qed.

Lemma insertionSort_length data :
  length (insertionSort less data) = length data.
Proof. by rewrite insertionSort_perm. Qed.

(** Stability: an element only moves past elements it is less than, so
    the elements of a class of pairwise ties keep their order. *)
Section Stable.
Context (P : A -> Prop) `{forall x, Decision (P x)}.
Hypothesis P_ties : forall a b, P a -> P b -> less a b = false.

Lemma sink_filter x before :
  filter P (reverse (sink less x before))
  = filter P (reverse before ++ [x]).
Proof.
  induction before as [|y rest IH]; simpl; [done|].
  destruct (less x y) eqn:Hxy; [|by rewrite reverse_cons].
  rewrite !reverse_cons, !filter_app, IH, filter_app.
  rewrite <- !(assoc_L (++)). f_equal.
  destruct (decide (P x)) as [Hx|Hx], (decide (P y)) as [Hy|Hy].
  - rewrite (P_ties x y) in Hxy by done. done.
  - by rewrite (filter_cons_False _ y), filter_nil, app_nil_r.
  - by rewrite (filter_cons_False _ x), filter_nil, app_nil_r.
  - by rewrite (filter_cons_False _ y), (filter_cons_False _ x).
Qed.

Lemma foldl_sink_filter data sorted :
  filter P (reverse (foldl (fun sorted x => sink less x sorted) sorted data))
  = filter P (reverse sorted ++ data).
Proof.
  revert sorted. induction data as [|x data IH]; simpl; intros sorted.
  - by rewrite app_nil_r.
  - rewrite IH, !filter_app, sink_filter, filter_app.
    rewrite <- (assoc_L (++)). f_equal. by rewrite <- filter_app.
Qed.

Lemma insertionSort_stable data :
  filter P (insertionSort less data) = filter P data.
Proof. unfold insertionSort. by rewrite foldl_sink_filter. Qed.
End Stable.

Lemma less_irrefl x : less x x = false.
Proof.
  destruct (less x x) eqn:Hx; [|done].
  by rewrite (less_asym x x Hx) in Hx.
Qed.

Lemma tie_refl x : tie less x x.
Proof. unfold tie. by rewrite less_irrefl. Qed.

Lemma tie_sym x y : tie less x y -> tie less y x.
Proof. unfold tie. by destruct (less x y), (less y x). Qed.

Lemma tie_no_less k a b : tie less k a -> tie less k b -> less a b = false.
Proof.
  unfold tie. intros Ha Hb.
  apply (less_negtrans a k b).
  - by destruct (less a k), (less k a).
  - by destruct (less k b), (less b k).
Qed.

Lemma tie_trans x y z : tie less x y -> tie less y z -> tie less x z.
Proof.
  intros Hxy Hyz. unfold tie.
  rewrite (tie_no_less y x z), (tie_no_less y z x); auto using tie_sym.
Qed.

Lemma insertionSort_ties k data :
  filter (tie less k) (insertionSort less data) = filter (tie less k) data.
Proof. apply insertionSort_stable. intros a b. apply tie_no_less. Qed.

(** Two ascending lists with the same ties, in the same order, are the
    same list. *)
Lemma ascending_ties_unique l1 l2 :
  ascending l1 -> ascending l2 ->
  (forall k, filter (tie less k) l1 = filter (tie less k) l2) ->
  l1 = l2.
Proof.
  revert l2. induction l1 as [|x l1 IH]; intros [|y l2] Hs1 Hs2 Hties.
  - done.
  - specialize (Hties y). rewrite filter_nil in Hties.
    by rewrite filter_cons_True in Hties by apply tie_refl.
  - specialize (Hties x). rewrite filter_nil in Hties.
    by rewrite filter_cons_True in Hties by apply tie_refl.
  - apply StronglySorted_cons in Hs1 as [Hx Hs1].
    apply StronglySorted_cons in Hs2 as [Hy Hs2].
    assert (tie less x y) as Hxy.
    { destruct (tie less x y) eqn:Ht; [done|].
      assert (x ∈ l2) as Hin2.
      { pose proof (Hties x) as Hk.
        rewrite filter_cons_True in Hk by apply tie_refl.
        rewrite (filter_cons_False _ y) in Hk by (rewrite Ht; exact id).
        apply (list_elem_of_filter (tie less x)). rewrite <- Hk. left. }
      assert (y ∈ l1) as Hin1.
      { pose proof (Hties y) as Hk.
        rewrite (filter_cons_True _ y) in Hk by apply tie_refl.
        rewrite (filter_cons_False _ x) in Hk.
        - apply (list_elem_of_filter (tie less y)). rewrite Hk. left.
        - intros Hyx. apply tie_sym in Hyx. by rewrite Ht in Hyx. }
      rewrite Forall_forall in Hx, Hy.
      unfold tie in Ht. by rewrite (Hx _ Hin1), (Hy _ Hin2) in Ht. }
    assert (x = y) as <-.
    { pose proof (Hties x) as Hk.
      rewrite !filter_cons_True in Hk by (done || apply tie_refl).
      by injection Hk. }
    f_equal. apply IH; [done..|]. intros k. specialize (Hties k).
    destruct (decide (tie less k x)) as [Hk|Hk].
    + rewrite !filter_cons_True in Hties by done. by injection Hties.
    + by rewrite !filter_cons_False in Hties by done.
Qed.

(** So the model of [SliceStable] is the only stable sort there is: a
    sorted arrangement that keeps ties in their order is its result. *)
Lemma stable_sort_unique data sorted :
  ascending sorted ->
  (forall k, filter (tie less k) sorted = filter (tie less k) data) ->
  sorted = SliceStable less data.
Proof.
  intros Hs Hties. apply ascending_ties_unique; [done| |].
  - apply insertionSort_ascending.
  - intros k. unfold SliceStable. by rewrite insertionSort_ties.
Qed.
End SliceStableFacts.

(** * The comparisons of [sortTrainsByAscending] *)

Lemma float32_lt_true x y : float32_lt x y = true <-> (x < y)%Q.
Proof. unfold float32_lt, Qlt. apply Z.ltb_lt. Qed.

Lemma float32_lt_false x y : float32_lt x y = false <-> (y <= x)%Q.
Proof. unfold float32_lt, Qle. apply Z.ltb_ge. Qed.

Lemma Before_true t u :
  Before t u = true <-> sec t < sec u \/ (sec t = sec u /\ nsec t < nsec u).
Proof. unfold Before. destruct t, u; simpl. lia. Qed.

Lemma Before_false t u : Before t u = false <-> timeLe u t.
Proof. unfold Before, timeLe. destruct t, u; simpl. lia. Qed.

Lemma timeLe_trans t u v : timeLe t u -> timeLe u v -> timeLe t v.
Proof. unfold timeLe. lia. Qed.

Lemma Before_asym t u : Before t u = true -> Before u t = false.
Proof. rewrite Before_true, Before_false. unfold timeLe. lia. Qed.

Lemma Before_negtrans t u v :
  Before t u = false -> Before u v = false -> Before t v = false.
Proof. rewrite !Before_false. eauto using timeLe_trans. Qed.

Lemma timeEq_eq t u : timeEq t u <-> t = u.
Proof.
  unfold timeEq. destruct t as [s n], u as [s' n']; simpl.
  rewrite andb_True, !Is_true_true, Z.eqb_eq, Z.eqb_eq.
  split; [intros [-> ->]; done | intros [= -> ->]; done].
Qed.

Lemma recognized_cases criterion :
  recognized criterion <->
  criterion = "price" \/ criterion = "arrival-time"
  \/ criterion = "departure-time".
Proof.
  unfold recognized, recognizedCriteria.
  rewrite bool_decide_spec, !elem_of_cons, elem_of_nil. tauto.
Qed.

Lemma lessBy_asym criteria x y :
  lessBy criteria x y = true -> lessBy criteria y x = false.
Proof.
  unfold lessBy.
  repeat case_match; try done.
  - rewrite float32_lt_true, float32_lt_false. apply Qlt_le_weak.
  - apply Before_asym.
  - apply Before_asym.
Qed.

Lemma lessBy_negtrans criteria x y z :
  lessBy criteria x y = false -> lessBy criteria y z = false ->
  lessBy criteria x z = false.
Proof.
  unfold lessBy.
  repeat case_match; try done.
  - rewrite !float32_lt_false. intros Hyx Hzy. by eapply Qle_trans.
  - apply Before_negtrans.
  - apply Before_negtrans.
Qed.

(** The comparison orders the records by the field the criterion names. *)
Lemma lessBy_keyLe criterion x y :
  recognized criterion ->
  lessBy criterion y x = false <-> keyLe criterion x y.
Proof.
  rewrite recognized_cases. intros [->|[->| ->]]; unfold lessBy, keyLe; simpl.
  - apply float32_lt_false.
  - apply Before_false.
  - apply Before_false.
Qed.

Lemma Before_tie t u :
  negb (Before t u) && negb (Before u t) <-> timeEq t u.
Proof.
  rewrite andb_True, !negb_True, !Is_true_false, !Before_false, timeEq_eq.
  unfold timeLe. destruct t, u; simpl.
  split; [intros [H1 H2]; f_equal; lia | intros [= -> ->]; lia].
Qed.

Lemma float32_lt_tie x y :
  negb (float32_lt x y) && negb (float32_lt y x) <-> Qeq_bool x y.
Proof.
  rewrite andb_True, !negb_True, !Is_true_false, !float32_lt_false.
  rewrite Is_true_true, Qeq_bool_iff. split.
  - intros [H1 H2]. by apply Qle_antisym.
  - intros ->. split; apply Qle_refl.
Qed.

(** Two records tie for the comparison when the field has equal values. *)
Lemma tie_sameKey criterion x y :
  recognized criterion ->
  tie (lessBy criterion) x y <-> sameKey criterion x y.
Proof.
  rewrite recognized_cases.
  intros [->|[->| ->]]; unfold tie, lessBy, sameKey; simpl;
    auto using float32_lt_tie, Before_tie.
Qed.

(** * The steps of [FindTrains] *)

Lemma stationID_Some text n :
  stationID text = Some n <-> Atoi text = inl n /\ 1 <= n.
Proof.
  unfold stationID. destruct (Atoi text) as [m|e].
  - destruct (Z.leb_spec 1 m) as [Hm|Hm].
    + split; [intros [= ->]; done | intros [[= ->] _]; done].
    + split; [done | intros [[= ->] ?]; lia].
  - split; [done | intros [[=] _]].
Qed.

Lemma stationID_None text :
  stationID text = None <->
  match Atoi text with inl n => n < minIDNumber | inr _ => True end.
Proof.
  unfold stationID, minIDNumber. destruct (Atoi text) as [m|e]; [|done].
  destruct (Z.leb_spec 1 m) as [Hm|Hm]; [|done].
  split; [done | lia].
Qed.

Lemma len_empty text : (len text <? minLen) = String.eqb text "".
Proof.
  unfold len, minLen. destruct text as [|c rest]; [done|].
  simpl String.length. simpl String.eqb. lia.
Qed.

Lemma stationID_nonempty text n : stationID text = Some n -> text <> "".
Proof. by intros Hn ->. Qed.

Lemma criteriaOfSort_lookup criteria :
  is_Some (criteriaOfSort !! criteria) <-> recognized criteria.
Proof.
  rewrite recognized_cases. unfold criteriaOfSort.
  rewrite !lookup_insert, lookup_empty.
  repeat case_decide; subst; (split; [intros Hs | intros Hc]);
    try (by eexists); try tauto.
  - by destruct Hs.
  - destruct Hc as [?|[?|?]]; congruence.
Qed.

Lemma matchingTrains_from data departureID arrivalID (found : Trains) :
  foldl (fun trains v =>
           if (DepartureStationID v =? departureID)
              && (ArrivalStationID v =? arrivalID)
           then trains ++ [v] else trains)
        found data
  = found ++ filter (matches departureID arrivalID) data.
Proof.
  revert found. induction data as [|v data IH]; simpl; intros found.
  - by rewrite app_nil_r.
  - rewrite IH, filter_cons. unfold matches at 2.
    destruct (Z.eqb_spec (DepartureStationID v) departureID),
             (Z.eqb_spec (ArrivalStationID v) arrivalID); simpl;
      case_decide; try tauto.
    by rewrite <- (assoc_L (++)).
Qed.

(** The loop keeps the matching records, in the order of the dataset. *)
Lemma matchingTrains_filter data departureID arrivalID :
  matchingTrains data departureID arrivalID
  = filter (matches departureID arrivalID) data.
Proof. apply (matchingTrains_from data departureID arrivalID []). Qed.

Section Engine.
Variable decodeTrains : list Byte.byte -> Trains -> Trains.

(** The load, step by step: it opens the file and reads it, or prints why
    it could not; the files are left as they were. *)
Lemma readDataFromJSON_eq path w :
  readDataFromJSON decodeTrains path w =
  match files w !! path with
  | Some content =>
      (jsonUnmarshal decodeTrains content [],
       mkWorld (files w) (openError w)
         ((log w ++ [EvOpen path]) ++ [EvReadAll path]))
  | None =>
      ([],
       mkWorld (files w) (openError w)
         ((log w ++ [EvOpen path])
          ++ [EvPrintln ("open " +:+ path +:+ ": " +:+ openError w path)]))
  end.
Proof.
  unfold readDataFromJSON, bind, osOpen, emit, bind; simpl.
  destruct (files w !! path) as [content|] eqn:Hfile; simpl.
  - by rewrite Hfile.
  - done.
Qed.

Lemma readDataFromJSON_files path w :
  files (readDataFromJSON decodeTrains path w).2 = files w.
Proof. rewrite readDataFromJSON_eq. by destruct (files w !! path). Qed.

Lemma sortTrainsByAscending_eq trains criteria w :
  recognized criteria ->
  sortTrainsByAscending trains criteria w =
  (SliceStable (lessBy criteria) trains,
   mkWorld (files w) (openError w)
     (log w ++ [EvPrintln ("Sorting by " +:+ criteria)])).
Proof.
  rewrite recognized_cases. by intros [->|[->| ->]].
Qed.

(** What [FindTrains] does once the five checks have passed. *)
Lemma FindTrains_valid departureText arrivalText criterion d a w :
  validQuery departureText arrivalText criterion d a ->
  FindTrains decodeTrains departureText arrivalText criterion w =
  let loaded := readDataFromJSON decodeTrains dataPath w in
  match filter (matches d a) loaded.1 with
  | [] => ((None, None), loaded.2)
  | trains =>
      ((Some (take 3 (SliceStable (lessBy criterion) trains)), None),
       mkWorld (files loaded.2) (openError loaded.2)
         (log loaded.2 ++ [EvPrintln ("Sorting by " +:+ criterion)]))
  end.
Proof.
  intros (Hd & Ha & Hc). unfold FindTrains.
  rewrite !len_empty.
  pose proof (stationID_nonempty _ _ Hd) as Hd0.
  pose proof (stationID_nonempty _ _ Ha) as Ha0.
  apply String.eqb_neq in Hd0 as ->. apply String.eqb_neq in Ha0 as ->.
  apply stationID_Some in Hd as [-> Hd]. apply stationID_Some in Ha as [-> Ha].
  unfold minIDNumber.
  destruct (Z.ltb_spec d 1) as [?|_]; [lia|].
  destruct (Z.ltb_spec a 1) as [?|_]; [lia|].
  pose proof Hc as Hm. apply criteriaOfSort_lookup in Hm as [k ->].
  unfold bind at 1.
  destruct (readDataFromJSON decodeTrains dataPath w) as [data w1]; simpl.
  rewrite matchingTrains_filter.
  destruct (filter (matches d a) data) as [|t ts] eqn:Hf; [done|].
  unfold minLen.
  destruct (Z.ltb_spec (Z.of_nat (length (t :: ts))) 1) as [Hl|_];
    [simpl in Hl; lia|].
  unfold bind. rewrite sortTrainsByAscending_eq by done.
  unfold numOfReturnTrains, ret.
  destruct (Z.ltb_spec (Z.of_nat (length (SliceStable (lessBy criterion) (t :: ts)))) 3)
    as [Hl|_]; [|done].
  rewrite take_ge by lia. done.
Qed.
End Engine.

(** * Validation *)

Section Validation.
Variable decodeTrains : list Byte.byte -> Trains -> Trains.

(** A failing check ends the call at once, with its error and no result,
    and leaves the world as it was. *)
Lemma FindTrains_invalid departureText arrivalText criterion e w :
  firstFailing (validationChecks departureText arrivalText criterion) = Some e ->
  FindTrains decodeTrains departureText arrivalText criterion w
  = ((None, Some e), w).
Proof.
  unfold validationChecks, firstFailing, FindTrains. rewrite !len_empty.
  destruct (String.eqb departureText ""); simpl; [by intros [= <-]|].
  destruct (String.eqb arrivalText ""); simpl; [by intros [= <-]|].
  destruct (stationID departureText) as [d|] eqn:Hd.
  2:{ rewrite bool_decide_eq_false_2 by (by intros [? [=]]). intros [= <-].
      apply stationID_None in Hd.
      destruct (Atoi departureText) as [n|]; [|done].
      by destruct (Z.ltb_spec n minIDNumber); [|lia]. }
  rewrite bool_decide_eq_true_2 by by eexists.
  apply stationID_Some in Hd as [-> Hd].
  destruct (Z.ltb_spec d minIDNumber) as [?|_]; [unfold minIDNumber in *; lia|].
  destruct (stationID arrivalText) as [a|] eqn:Ha.
  2:{ rewrite bool_decide_eq_false_2 by (by intros [? [=]]). intros [= <-].
      apply stationID_None in Ha.
      destruct (Atoi arrivalText) as [n|]; [|done].
      by destruct (Z.ltb_spec n minIDNumber); [|lia]. }
  rewrite bool_decide_eq_true_2 by by eexists.
  apply stationID_Some in Ha as [-> Ha].
  destruct (Z.ltb_spec a minIDNumber) as [?|_]; [unfold minIDNumber in *; lia|].
  destruct (recognized criterion) eqn:Hc; [done|]. intros [= <-].
  destruct (criteriaOfSort !! criterion) as [k|] eqn:Hk; [|done].
  assert (recognized criterion) as Hr by (apply criteriaOfSort_lookup; eauto).
  by rewrite Hc in Hr.
Qed.

(** When no check fails the input is valid. *)
Lemma firstFailing_None departureText arrivalText criterion :
  firstFailing (validationChecks departureText arrivalText criterion) = None ->
  exists d a, validQuery departureText arrivalText criterion d a.
Proof.
  unfold validationChecks, firstFailing, validQuery.
  destruct (String.eqb departureText ""); simpl; [done|].
  destruct (String.eqb arrivalText ""); simpl; [done|].
  destruct (stationID departureText) as [d|]; simpl; [|done].
  destruct (stationID arrivalText) as [a|]; simpl; [|done].
  destruct (recognized criterion); [|done].
  intros _. by exists d, a.
Qed.

Lemma validQuery_passes departureText arrivalText criterion d a :
  validQuery departureText arrivalText criterion d a ->
  firstFailing (validationChecks departureText arrivalText criterion) = None.
Proof.
  intros (Hd & Ha & Hc). unfold validationChecks, firstFailing.
  pose proof (stationID_nonempty _ _ Hd) as Hd0.
  pose proof (stationID_nonempty _ _ Ha) as Ha0.
  apply String.eqb_neq in Hd0 as ->. apply String.eqb_neq in Ha0 as ->.
  rewrite Hd, Ha; simpl.
  by destruct (recognized criterion).
Qed.

(** A valid input never yields an error. *)
Lemma FindTrains_valid_no_error departureText arrivalText criterion d a w :
  validQuery departureText arrivalText criterion d a ->
  (FindTrains decodeTrains departureText arrivalText criterion w).1.2 = None.
Proof.
  intros Hv. rewrite (FindTrains_valid _ _ _ _ _ _ _ Hv); simpl.
  by destruct (filter _ _).
Qed.

(** C1. [FindTrains] makes its five checks in the order: departure text
    not empty, arrival text not empty, departure text parses as an integer
    of at least 1, arrival text parses as an integer of at least 1,
    criterion recognized. The first check that fails decides the outcome:
    no result and the error of that check; when none fails there is no
    error. In particular two empty station texts give the departure
    error, and the criterion error is only given for two valid stations
    and an unrecognized criterion. *)
Theorem FindTrains_validation_order departureText arrivalText criterion w :
  match firstFailing (validationChecks departureText arrivalText criterion) with
  | Some e =>
      FindTrains decodeTrains departureText arrivalText criterion w
      = ((None, Some e), w)
  | None =>
      (FindTrains decodeTrains departureText arrivalText criterion w).1.2 = None
  end
  /\ (FindTrains decodeTrains "" "" criterion w).1
     = (None, Some errEmptyDepStation)
  /\ ((FindTrains decodeTrains departureText arrivalText criterion w).1.2
      = Some errCriteria ->
      is_Some (stationID departureText) /\ is_Some (stationID arrivalText)
      /\ ~ recognized criterion).
Proof.
  split_and!.
  - destruct (firstFailing _) as [e|] eqn:Hf.
    + by apply FindTrains_invalid.
    + apply firstFailing_None in Hf as (d & a & Hv).
      by eapply FindTrains_valid_no_error.
  - done.
  - destruct (firstFailing (validationChecks departureText arrivalText criterion))
      as [e|] eqn:Hf.
    + rewrite (FindTrains_invalid _ _ _ _ w Hf). simpl. intros [= ->].
      revert Hf. unfold validationChecks, firstFailing.
      destruct (String.eqb departureText ""); simpl; [done|].
      destruct (String.eqb arrivalText ""); simpl; [done|].
      destruct (stationID departureText) as [d|]; simpl; [|done].
      destruct (stationID arrivalText) as [a|]; simpl; [|done].
      destruct (recognized criterion); [done|].
      intros _. split_and!; [by eexists..|exact id].
    + apply firstFailing_None in Hf as (d & a & Hv).
      by rewrite (FindTrains_valid_no_error _ _ _ _ _ w Hv).
Qed.
End Validation.

(** * Filter, sort and truncation *)

Lemma StronglySorted_mono {A} (R R' : relation A) l :
  (forall x y, R x y -> R' x y) -> StronglySorted R l -> StronglySorted R' l.
Proof.
  intros HR. induction 1 as [|x l Hl IH Hx]; constructor; [done|].
  eapply Forall_impl; [exact Hx|]. intros y. apply HR.
Qed.

Lemma StronglySorted_take {A} (R : relation A) n l :
  StronglySorted R l -> StronglySorted R (take n l).
Proof.
  intros Hl. rewrite <- (take_drop n l) in Hl.
  by apply StronglySorted_app_1_l in Hl.
Qed.

Lemma filter_take_prefix {A} (P : A -> Prop) `{forall x, Decision (P x)} n l :
  filter P (take n l) `prefix_of` filter P l.
Proof.
  exists (filter P (drop n l)). by rewrite <- filter_app, take_drop.
Qed.

(** Two positions of a list, in their order, split it in three. *)
Lemma lookup_two_split {A} (l : list A) i j x y :
  (i < j)%nat -> l !! i = Some x -> l !! j = Some y ->
  exists l1 l2 l3, l = l1 ++ x :: l2 ++ y :: l3.
Proof.
  intros Hij Hi Hj.
  apply list_elem_of_split_length in Hi as (l1 & rest & -> & ->).
  rewrite lookup_app_r in Hj by lia.
  destruct (j - length l1)%nat as [|k] eqn:Hk; [lia|]. simpl in Hj.
  apply list_elem_of_split_length in Hj as (l2 & l3 & -> & _).
  by exists l1, l2, l3.
Qed.

Lemma split_two_lookup {A} (l1 l2 l3 : list A) x y :
  exists i j, (i < j)%nat
              /\ (l1 ++ x :: l2 ++ y :: l3) !! i = Some x
              /\ (l1 ++ x :: l2 ++ y :: l3) !! j = Some y.
Proof.
  exists (length l1), (length (l1 ++ x :: l2)). split_and!.
  - rewrite length_app. simpl. lia.
  - by apply list_lookup_middle.
  - change (l1 ++ x :: l2 ++ y :: l3) with (l1 ++ (x :: l2) ++ y :: l3).
    rewrite (assoc_L (++)). by apply list_lookup_middle.
Qed.

(** Filtering keeps the order of the elements it keeps. *)
Lemma filter_lookup_order {A} (P : A -> Prop) `{forall x, Decision (P x)}
    (l : list A) i j x y :
  (i < j)%nat -> l !! i = Some x -> l !! j = Some y -> P x -> P y ->
  exists p q, (p < q)%nat
              /\ filter P l !! p = Some x /\ filter P l !! q = Some y.
Proof.
  intros Hij Hi Hj Hx Hy.
  destruct (lookup_two_split l i j x y) as (l1 & l2 & l3 & ->); [done..|].
  rewrite filter_app, filter_cons_True, filter_app, filter_cons_True by done.
  apply split_two_lookup.
Qed.

(** A subsequence keeps the order of its elements. *)
Lemma sublist_lookup_order {A} (l k : list A) p q x y :
  l `sublist_of` k ->
  (p < q)%nat -> l !! p = Some x -> l !! q = Some y ->
  exists i j, (i < j)%nat /\ k !! i = Some x /\ k !! j = Some y.
Proof.
  intros Hsub Hpq Hp Hq.
  destruct (lookup_two_split l p q x y) as (l1 & l2 & l3 & ->); [done..|].
  apply sublist_app_l in Hsub as (k1 & k2 & -> & _ & Hsub).
  apply sublist_cons_l in Hsub as (k3 & k4 & -> & Hsub).
  apply sublist_app_l in Hsub as (k5 & k6 & -> & _ & Hsub).
  apply sublist_cons_l in Hsub as (k7 & k8 & -> & _).
  rewrite (assoc_L (++) k1 k3), (assoc_L (++) k5 k7).
  apply split_two_lookup.
Qed.

Section Queries.
Variable decodeTrains : list Byte.byte -> Trains -> Trains.

Local Abbreviation FindTrains := (FindTrains decodeTrains).
Local Abbreviation dataset := (dataset decodeTrains).

(** The records a valid query returns: the matching records of the
    dataset, sorted, and the first three of them. *)
Lemma FindTrains_elements departureText arrivalText criterion d a w :
  validQuery departureText arrivalText criterion d a ->
  elements (FindTrains departureText arrivalText criterion w).1.1
  = take 3 (SliceStable (lessBy criterion) (filter (matches d a) (dataset w))).
Proof.
  intros Hv. rewrite (FindTrains_valid _ _ _ _ _ _ _ Hv). unfold dataset.
  simpl. by destruct (filter _ _).
Qed.

Lemma FindTrains_no_match departureText arrivalText criterion d a w :
  validQuery departureText arrivalText criterion d a ->
  filter (matches d a) (dataset w) = [] ->
  (FindTrains departureText arrivalText criterion w).1 = (None, None).
Proof.
  intros Hv. rewrite (FindTrains_valid _ _ _ _ _ _ _ Hv). unfold dataset.
  simpl. by intros ->.
Qed.

Lemma FindTrains_some_match departureText arrivalText criterion d a w :
  validQuery departureText arrivalText criterion d a ->
  filter (matches d a) (dataset w) <> [] ->
  (FindTrains departureText arrivalText criterion w).1
  = (Some (take 3 (SliceStable (lessBy criterion)
                     (filter (matches d a) (dataset w)))), None).
Proof.
  intros Hv. rewrite (FindTrains_valid _ _ _ _ _ _ _ Hv). unfold dataset.
  simpl. by destruct (filter _ _).
Qed.

(** C2. On a valid input a record of the dataset enters the candidates
    (the slice the loop of [FindTrains] builds, which is then sorted and
    cut to three) exactly when its departure station is the parsed
    departure identifier and its arrival station is the parsed arrival
    identifier; a record that matches one station only stays out, of the
    candidates and of the result. *)
Theorem FindTrains_candidates departureText arrivalText criterion d a w :
  validQuery departureText arrivalText criterion d a ->
  let candidates := matchingTrains (dataset w) d a in
  (forall v, v ∈ candidates <->
             v ∈ dataset w
             /\ DepartureStationID v = d /\ ArrivalStationID v = a)
  /\ elements (FindTrains departureText arrivalText criterion w).1.1
     = take 3 (SliceStable (lessBy criterion) candidates)
  /\ (forall v, DepartureStationID v <> d \/ ArrivalStationID v <> a ->
                (v ∉ candidates)
                /\ (v ∉ elements (FindTrains departureText arrivalText criterion w).1.1)).
Proof.
  intros Hv candidates.
  assert (forall v, v ∈ candidates <->
                    v ∈ dataset w
                    /\ DepartureStationID v = d /\ ArrivalStationID v = a)
    as Hin.
  { intros v. unfold candidates. rewrite matchingTrains_filter.
    rewrite list_elem_of_filter. unfold matches. tauto. }
  assert (elements (FindTrains departureText arrivalText criterion w).1.1
          = take 3 (SliceStable (lessBy criterion) candidates)) as Hres.
  { unfold candidates. rewrite matchingTrains_filter.
    by apply FindTrains_elements. }
  split_and!; [done..|].
  intros v Hno.
  assert (v ∉ candidates) as Hout by (rewrite Hin; tauto).
  split; [done|]. rewrite Hres. intros Hv3. apply Hout.
  apply (subseteq_take 3) in Hv3.
  unfold SliceStable in Hv3.
  by rewrite (insertionSort_perm (lessBy criterion)) in Hv3.
Qed.

(** C3. On a valid input with at least one matching record the call
    returns a sequence, with no error, and the sequence is in ascending
    order of the field the criterion names: the price for "price", the
    departure time for "departure-time", the arrival time for
    "arrival-time". The sequence is what the sort makes of the matching
    records: it is not empty, it has min(3, number of matching records)
    elements, and with the records left out after it, it is the matching
    records, all of them and no other, in ascending order. *)
Theorem FindTrains_sorted departureText arrivalText criterion d a w :
  validQuery departureText arrivalText criterion d a ->
  filter (matches d a) (dataset w) <> [] ->
  exists result,
    (FindTrains departureText arrivalText criterion w).1 = (Some result, None)
    /\ StronglySorted (keyLe criterion) result
    /\ result <> []
    /\ length result = Nat.min 3 (length (filter (matches d a) (dataset w)))
    /\ exists rest,
         result ++ rest ≡ₚ filter (matches d a) (dataset w)
         /\ StronglySorted (keyLe criterion) (result ++ rest).
Proof.
  intros Hv Hsome.
  set (found := filter (matches d a) (dataset w)) in *.
  assert (StronglySorted (keyLe criterion) (SliceStable (lessBy criterion) found))
    as Hsorted.
  { apply (StronglySorted_mono (fun x y => lessBy criterion y x = false)).
    - intros x y. apply lessBy_keyLe, Hv.
    - apply insertionSort_ascending.
      + apply lessBy_asym.
      + apply lessBy_negtrans. }
  assert (length (take 3 (SliceStable (lessBy criterion) found))
          = Nat.min 3 (length found)) as Hlen.
  { rewrite length_take. unfold SliceStable. by rewrite insertionSort_length. }
  exists (take 3 (SliceStable (lessBy criterion) found)). split_and!.
  - by apply FindTrains_some_match.
  - by apply StronglySorted_take.
  - intros Hnil. rewrite Hnil in Hlen.
    destruct found; [done|simpl in Hlen; lia].
  - done.
  - exists (drop 3 (SliceStable (lessBy criterion) found)).
    rewrite take_drop. split; [apply insertionSort_perm|done].
Qed.

(** The records of the result with the key of [x] are the first ones of
    the matching records of the dataset with that key, in the order of
    the dataset. *)
Lemma FindTrains_ties_prefix departureText arrivalText criterion d a w x :
  validQuery departureText arrivalText criterion d a ->
  filter (sameKey criterion x)
         (elements (FindTrains departureText arrivalText criterion w).1.1)
  `prefix_of`
  filter (fun v => sameKey criterion x v /\ matches d a v) (dataset w).
Proof.
  intros Hv. rewrite (FindTrains_elements _ _ _ _ _ _ Hv).
  rewrite <- (list_filter_filter (sameKey criterion x) (matches d a)).
  assert (forall l : Trains,
             filter (sameKey criterion x) l
             = filter (tie (lessBy criterion) x) l) as Hkey.
  { intros l. apply list_filter_iff. intros v. symmetry.
    apply tie_sameKey, Hv. }
  rewrite (Hkey (filter _ _)).
  rewrite <- (insertionSort_ties (lessBy criterion)
                (lessBy_negtrans criterion) x).
  rewrite Hkey. apply filter_take_prefix.
Qed.

(** C4. The sort of [FindTrains] is stable. On a valid input, for every
    key value, the records of the result with that value are the first
    ones among the matching records of the dataset with that value, in
    the order of the dataset; so two records of the result with equal key
    values, one before the other, are found in that order in the
    dataset. *)
Theorem FindTrains_stable departureText arrivalText criterion d a w :
  validQuery departureText arrivalText criterion d a ->
  let result := elements (FindTrains departureText arrivalText criterion w).1.1 in
  (forall x,
      filter (sameKey criterion x) result
      `prefix_of`
      filter (fun v => sameKey criterion x v /\ matches d a v) (dataset w))
  /\ (forall i j x y,
        (i < j)%nat -> result !! i = Some x -> result !! j = Some y ->
        sameKey criterion x y ->
        exists i' j', (i' < j')%nat
                      /\ dataset w !! i' = Some x
                      /\ dataset w !! j' = Some y).
Proof.
  intros Hv result. split.
  - intros x. by apply FindTrains_ties_prefix.
  - intros i j x y Hij Hi Hj Hxy.
    assert (sameKey criterion x x) as Hxx.
    { apply tie_sameKey; [apply Hv|].
      apply tie_refl, lessBy_asym. }
    destruct (filter_lookup_order (sameKey criterion x) result i j x y)
      as (p & q & Hpq & Hp & Hq); [done..|].
    eapply sublist_lookup_order; [|exact Hpq|exact Hp|exact Hq].
    transitivity (filter (fun v => sameKey criterion x v /\ matches d a v)
                         (dataset w)).
    + destruct (FindTrains_ties_prefix _ _ _ _ _ w x Hv) as [rest ->].
      by apply sublist_inserts_r.
    + apply sublist_filter.
Qed.

(** C5. On a valid input the result has min(3, number of matching
    records) elements: the first three of the sorted matching records,
    which are all of them when fewer than three match, and exactly three
    when more than three match. *)
Theorem FindTrains_length departureText arrivalText criterion d a w :
  validQuery departureText arrivalText criterion d a ->
  let found := filter (matches d a) (dataset w) in
  let result := elements (FindTrains departureText arrivalText criterion w).1.1 in
  length result = Nat.min 3 (length found)
  /\ result = take 3 (SliceStable (lessBy criterion) found)
  /\ (length found < 3 -> result = SliceStable (lessBy criterion) found)%nat
  /\ (3 < length found -> length result = 3)%nat.
Proof.
  intros Hv found result.
  assert (result = take 3 (SliceStable (lessBy criterion) found)) as Hres
    by by apply FindTrains_elements.
  assert (length result = Nat.min 3 (length found)) as Hlen.
  { rewrite Hres, length_take. unfold SliceStable.
    by rewrite insertionSort_length. }
  split_and!; [done..| |].
  - intros Hfew. rewrite Hres. apply take_ge.
    unfold SliceStable. rewrite insertionSort_length. lia.
  - intros Hmany. rewrite Hlen. lia.
Qed.

(** C6. On a valid input for which no record of the dataset matches both
    stations the call returns an empty result and a nil error; and
    whenever the call returns an error, that error is the one of a failed
    validation check. *)
Theorem FindTrains_no_match_no_error departureText arrivalText criterion w :
  (forall d a,
      validQuery departureText arrivalText criterion d a ->
      filter (matches d a) (dataset w) = [] ->
      (FindTrains departureText arrivalText criterion w).1.2 = None
      /\ elements (FindTrains departureText arrivalText criterion w).1.1 = [])
  /\ (forall e,
        (FindTrains departureText arrivalText criterion w).1.2 = Some e ->
        firstFailing (validationChecks departureText arrivalText criterion)
        = Some e).
Proof.
  split.
  - intros d a Hv Hnone. by rewrite (FindTrains_no_match _ _ _ _ _ _ Hv Hnone).
  - intros e He.
    destruct (firstFailing _) as [e'|] eqn:Hf.
    + rewrite (FindTrains_invalid _ _ _ _ _ w Hf) in He. done.
    + apply firstFailing_None in Hf as (d & a & Hv).
      by rewrite (FindTrains_valid_no_error _ _ _ _ _ _ w Hv) in He.
Qed.

(** C10. On a valid input with no matching record the result is the nil
    slice, not an empty slice that is not nil; so every result that is
    not nil has at least one element. *)
Theorem FindTrains_nil_when_empty departureText arrivalText criterion w :
  (forall d a,
      validQuery departureText arrivalText criterion d a ->
      filter (matches d a) (dataset w) = [] ->
      (FindTrains departureText arrivalText criterion w).1.1 = None)
  /\ (forall result,
        (FindTrains departureText arrivalText criterion w).1.1 = Some result ->
        result <> []).
Proof.
  split.
  - intros d a Hv Hnone. by rewrite (FindTrains_no_match _ _ _ _ _ _ Hv Hnone).
  - intros result Hres.
    destruct (firstFailing (validationChecks departureText arrivalText criterion))
      as [e|] eqn:Hf.
    + by rewrite (FindTrains_invalid _ _ _ _ _ w Hf) in Hres.
    + apply firstFailing_None in Hf as (d & a & Hv).
      destruct (decide (filter (matches d a) (dataset w) = [])) as [Hnone|Hsome].
      * by rewrite (FindTrains_no_match _ _ _ _ _ _ Hv Hnone) in Hres.
      * rewrite (FindTrains_some_match _ _ _ _ _ _ Hv Hsome) in Hres.
        injection Hres as <-. intros Hnil.
        apply (f_equal length) in Hnil.
        rewrite length_take in Hnil. unfold SliceStable in Hnil.
        rewrite insertionSort_length in Hnil.
        destruct (filter (matches d a) (dataset w)); [done|simpl in Hnil; lia].
Qed.
End Queries.

(** * Effects *)

Lemma effects_app {A} (m : IO A) w events :
  log (m w).2 = log w ++ events -> effects m w = events.
Proof. unfold effects. intros ->. by rewrite drop_app_length. Qed.

Section Effects.
Variable decodeTrains : list Byte.byte -> Trains -> Trains.

Local Abbreviation FindTrains := (FindTrains decodeTrains).
Local Abbreviation dataset := (dataset decodeTrains).

(** The dataset is what the decoder finds in the file; there is none
    when the file cannot be opened. *)
Lemma dataset_eq w :
  dataset w = match files w !! dataPath with
              | Some content => jsonUnmarshal decodeTrains content []
              | None => []
              end.
Proof.
  unfold dataset. rewrite readDataFromJSON_eq.
  by destruct (files w !! dataPath).
Qed.

(** The events of a valid call: the file is opened, then read, or the
    failure to open it is printed; a line is printed before the sort. *)
Lemma FindTrains_valid_effects departureText arrivalText criterion d a w :
  validQuery departureText arrivalText criterion d a ->
  effects (FindTrains departureText arrivalText criterion) w
  = EvOpen dataPath
    :: match files w !! dataPath with
       | Some _ => EvReadAll dataPath
       | None =>
           EvPrintln ("open " +:+ dataPath +:+ ": " +:+ openError w dataPath)
       end
    :: match filter (matches d a) (dataset w) with
       | [] => []
       | _ => [EvPrintln ("Sorting by " +:+ criterion)]
       end.
Proof.
  intros Hv. apply effects_app.
  rewrite (FindTrains_valid _ _ _ _ _ _ _ Hv). unfold dataset.
  rewrite readDataFromJSON_eq.
  destruct (files w !! dataPath) as [content|]; simpl.
  - destruct (filter _ _); simpl; by rewrite <- !(assoc_L (++)).
  - by rewrite <- !(assoc_L (++)).
Qed.

Lemma FindTrains_files departureText arrivalText criterion w :
  files (FindTrains departureText arrivalText criterion w).2 = files w.
Proof.
  destruct (firstFailing (validationChecks departureText arrivalText criterion))
    as [e|] eqn:Hf.
  - by rewrite (FindTrains_invalid _ _ _ _ _ w Hf).
  - apply firstFailing_None in Hf as (d & a & Hv).
    rewrite (FindTrains_valid _ _ _ _ _ _ _ Hv). simpl.
    destruct (filter _ _); simpl; apply readDataFromJSON_files.
Qed.

(** The answer depends on the world through the dataset file only. *)
Lemma FindTrains_same_file departureText arrivalText criterion w1 w2 :
  files w1 !! dataPath = files w2 !! dataPath ->
  (FindTrains departureText arrivalText criterion w1).1
  = (FindTrains departureText arrivalText criterion w2).1.
Proof.
  intros Hfile.
  destruct (firstFailing (validationChecks departureText arrivalText criterion))
    as [e|] eqn:Hf.
  - by rewrite !(FindTrains_invalid _ _ _ _ _ _ Hf).
  - apply firstFailing_None in Hf as (d & a & Hv).
    rewrite !(FindTrains_valid _ _ _ _ _ _ _ Hv), !readDataFromJSON_eq.
    rewrite Hfile. destruct (files w2 !! dataPath); simpl; [|done].
    by destruct (filter _ _).
Qed.

(** C7. On a valid input, when the dataset file cannot be opened, the
    load returns no record and [FindTrains] returns a nil result and a
    nil error: no error tells of the failure, and the answer is the one
    of every world where no record matches. *)
Theorem FindTrains_unreadable_dataset departureText arrivalText criterion d a w :
  validQuery departureText arrivalText criterion d a ->
  files w !! dataPath = None ->
  dataset w = []
  /\ (FindTrains departureText arrivalText criterion w).1 = (None, None)
  /\ (forall w',
        filter (matches d a) (dataset w') = [] ->
        (FindTrains departureText arrivalText criterion w').1
        = (FindTrains departureText arrivalText criterion w).1).
Proof.
  intros Hv Hfile.
  assert (dataset w = []) as Hdata by by rewrite dataset_eq, Hfile.
  assert ((FindTrains departureText arrivalText criterion w).1 = (None, None))
    as Hres.
  { apply (FindTrains_no_match _ _ _ _ d a); [done|]. by rewrite Hdata. }
  split_and!; [done..|].
  intros w' Hnone. rewrite Hres. by apply (FindTrains_no_match _ _ _ _ d a).
Qed.


(** C9. [FindTrains] is deterministic: with the same dataset file, two
    calls on the same three texts return the same result and the same
    error, so the same records in the same order; and a call leaves the
    world such that the next call answers the same. *)
Theorem FindTrains_deterministic departureText arrivalText criterion w1 w2 :
  files w1 !! dataPath = files w2 !! dataPath ->
  (FindTrains departureText arrivalText criterion w1).1
  = (FindTrains departureText arrivalText criterion w2).1
  /\ (FindTrains departureText arrivalText criterion
        (FindTrains departureText arrivalText criterion w1).2).1
     = (FindTrains departureText arrivalText criterion w1).1.
Proof.
  intros Hfile. split; [by apply FindTrains_same_file|].
  apply FindTrains_same_file. by rewrite FindTrains_files.
Qed.
End Effects.

(** * The sample world, run *)

Lemma sample_query :
  validQuery "1902" "1929" "price" 1902 1929.
Proof. unfold validQuery. split_and!; [reflexivity..|exact I]. Qed.

(** The scenarios of the tests: by price the two records at 164.65 come
    first, in the order of the dataset; a station that no record has gives
    nil and no error; an unknown criterion gives the criterion error. *)
Example FindTrains_by_price :
  (option_map (map TrainID) (FindTrains sampleDecode "1902" "1929" "price" sampleWorld).1.1,
   (FindTrains sampleDecode "1902" "1929" "price" sampleWorld).1.2)
  = (Some [1177; 1178; 1141], None).
Proof. vm_compute. reflexivity. Qed.

Example FindTrains_by_arrival :
  (option_map (map TrainID)
     (FindTrains sampleDecode "1902" "1929" "arrival-time" sampleWorld).1.1,
   (FindTrains sampleDecode "1902" "1929" "arrival-time" sampleWorld).1.2)
  = (Some [978; 1177; 1178], None).
Proof. vm_compute. reflexivity. Qed.

Example FindTrains_no_station :
  (FindTrains sampleDecode "12" "1929" "price" sampleWorld).1 = (None, None).
Proof. vm_compute. reflexivity. Qed.

Example FindTrains_bad_criterion :
  (FindTrains sampleDecode "1902" "1929" "awef" sampleWorld).1
  = (None, Some errCriteria).
Proof. vm_compute. reflexivity. Qed.

Example FindTrains_bad_station :
  (FindTrains sampleDecode "serg" "1922" "price" sampleWorld).1
  = (None, Some errBadDepStation)
  /\ (FindTrains sampleDecode "1902" "0" "price" sampleWorld).1
     = (None, Some errBadArrStation).
Proof. split; vm_compute; reflexivity. Qed.

(** A dataset file that may not be read: the load prints the reason the
    operating system gave, and the query finds nothing. *)
Example FindTrains_locked_file :
  (FindTrains sampleDecode "1902" "1929" "price" lockedWorld).1 = (None, None)
  /\ effects (FindTrains sampleDecode "1902" "1929" "price") lockedWorld
     = [EvOpen "data.json"; EvPrintln "open data.json: permission denied"].
Proof. split; vm_compute; reflexivity. Qed.

Lemma FindTrains_candidates_witness :
  validQuery "1902" "1929" "price" 1902 1929
  /\ let candidates := matchingTrains (dataset sampleDecode sampleWorld) 1902 1929 in
     (forall v, v ∈ candidates <->
                v ∈ dataset sampleDecode sampleWorld
                /\ DepartureStationID v = 1902 /\ ArrivalStationID v = 1929)
     /\ elements (FindTrains sampleDecode "1902" "1929" "price" sampleWorld).1.1
        = take 3 (SliceStable (lessBy "price") candidates)
     /\ (forall v, DepartureStationID v <> 1902 \/ ArrivalStationID v <> 1929 ->
                   (v ∉ candidates)
                   /\ (v ∉ elements (FindTrains sampleDecode "1902" "1929" "price"
                                      sampleWorld).1.1)).
Proof.
  split; [exact sample_query|].
  apply (FindTrains_candidates sampleDecode "1902" "1929" "price" 1902 1929
           sampleWorld).
  unfold validQuery. split_and!; [reflexivity..|exact I].
Defined.

Lemma FindTrains_sorted_witness :
  exists result,
    (FindTrains sampleDecode "1902" "1929" "price" sampleWorld).1
    = (Some result, None)
    /\ StronglySorted (keyLe "price") result
    /\ result <> []
    /\ length result
       = Nat.min 3 (length (filter (matches 1902 1929)
                                   (dataset sampleDecode sampleWorld)))
    /\ exists rest,
         result ++ rest
         ≡ₚ filter (matches 1902 1929) (dataset sampleDecode sampleWorld)
         /\ StronglySorted (keyLe "price") (result ++ rest).
Proof.
  apply (FindTrains_sorted sampleDecode "1902" "1929" "price" 1902 1929
           sampleWorld).
  - unfold validQuery. split_and!; [reflexivity..|exact I].
  - vm_compute. discriminate.
Defined.

Lemma FindTrains_stable_witness :
  let result :=
    elements (FindTrains sampleDecode "1902" "1929" "price" sampleWorld).1.1 in
  (forall x,
      filter (sameKey "price" x) result
      `prefix_of`
      filter (fun v => sameKey "price" x v /\ matches 1902 1929 v)
             (dataset sampleDecode sampleWorld))
  /\ (forall i j x y,
        (i < j)%nat -> result !! i = Some x -> result !! j = Some y ->
        sameKey "price" x y ->
        exists i' j', (i' < j')%nat
                      /\ dataset sampleDecode sampleWorld !! i' = Some x
                      /\ dataset sampleDecode sampleWorld !! j' = Some y).
Proof.
  apply (FindTrains_stable sampleDecode "1902" "1929" "price" 1902 1929
           sampleWorld).
  unfold validQuery. split_and!; [reflexivity..|exact I].
Defined.

Lemma FindTrains_length_witness :
  let found := filter (matches 1902 1929) (dataset sampleDecode sampleWorld) in
  let result :=
    elements (FindTrains sampleDecode "1902" "1929" "price" sampleWorld).1.1 in
  length found = 4%nat
  /\ length result = Nat.min 3 (length found)
  /\ result = take 3 (SliceStable (lessBy "price") found)
  /\ (length found < 3 -> result = SliceStable (lessBy "price") found)%nat
  /\ (3 < length found -> length result = 3)%nat.
Proof.
  split; [reflexivity|].
  apply (FindTrains_length sampleDecode "1902" "1929" "price" 1902 1929
           sampleWorld).
  unfold validQuery. split_and!; [reflexivity..|exact I].
Defined.

Lemma FindTrains_unreadable_dataset_witness :
  files noFileWorld !! dataPath = None
  /\ dataset sampleDecode noFileWorld = []
  /\ (FindTrains sampleDecode "1902" "1929" "price" noFileWorld).1 = (None, None)
  /\ (forall w',
        filter (matches 1902 1929) (dataset sampleDecode w') = [] ->
        (FindTrains sampleDecode "1902" "1929" "price" w').1
        = (FindTrains sampleDecode "1902" "1929" "price" noFileWorld).1).
Proof.
  split; [reflexivity|].
  apply (FindTrains_unreadable_dataset sampleDecode "1902" "1929" "price"
           1902 1929 noFileWorld).
  - unfold validQuery. split_and!; [reflexivity..|exact I].
  - reflexivity.
Defined.

Lemma FindTrains_deterministic_witness :
  (FindTrains sampleDecode "1902" "1929" "price" sampleWorld).1
  = (FindTrains sampleDecode "1902" "1929" "price"
       (mkWorld (files sampleWorld) (fun _ => "permission denied")
                [EvPrintln "an earlier line"])).1
  /\ (FindTrains sampleDecode "1902" "1929" "price"
        (FindTrains sampleDecode "1902" "1929" "price" sampleWorld).2).1
     = (FindTrains sampleDecode "1902" "1929" "price" sampleWorld).1.
Proof.
  apply (FindTrains_deterministic sampleDecode "1902" "1929" "price" sampleWorld
           (mkWorld (files sampleWorld) (fun _ => "permission denied")
                [EvPrintln "an earlier line"])).
  reflexivity.
Defined.


(** * More on the query engine *)

Section EngineFacts.
Variable decodeTrains : list Byte.byte -> Trains -> Trains.

(** With two valid stations, a criterion that is not recognized is the
    first failing check. *)
Lemma firstFailing_criteria departureText arrivalText criterion d a :
  stationID departureText = Some d -> stationID arrivalText = Some a ->
  ~ recognized criterion ->
  firstFailing (validationChecks departureText arrivalText criterion)
  = Some errCriteria.
Proof.
  intros Hd Ha Hc. unfold validationChecks, firstFailing.
  pose proof (stationID_nonempty _ _ Hd) as Hd0.
  pose proof (stationID_nonempty _ _ Ha) as Ha0.
  apply String.eqb_neq in Hd0 as ->. apply String.eqb_neq in Ha0 as ->.
  rewrite Hd, Ha; simpl.
  by destruct (recognized criterion).
Qed.

(** X1. Whatever the input, the records [FindTrains] returns are records
    of the dataset, each at most as many times as the dataset has it: the
    result is a sub-multiset of the dataset. *)
Theorem FindTrains_submultiset departureText arrivalText criterion w :
  elements (FindTrains decodeTrains departureText arrivalText criterion w).1.1
  ⊆+ dataset decodeTrains w.
Proof.
  destruct (firstFailing (validationChecks departureText arrivalText criterion))
    as [e|] eqn:Hf.
  - rewrite (FindTrains_invalid _ _ _ _ _ w Hf). apply submseteq_nil_l.
  - apply firstFailing_None in Hf as (d & a & Hv).
    rewrite (FindTrains_elements _ _ _ _ _ _ _ Hv).
    transitivity (SliceStable (lessBy criterion)
                    (filter (matches d a) (dataset decodeTrains w))).
    + apply sublist_submseteq, sublist_take.
    + unfold SliceStable. rewrite insertionSort_perm.
      apply sublist_submseteq, sublist_filter.
Qed.

(** X2. On a valid input the records returned are the least ones: the
    matching records split into the result and the records left out, and
    no record left out comes before a returned one in the order of the
    criterion. *)
Theorem FindTrains_returns_least departureText arrivalText criterion d a w :
  validQuery departureText arrivalText criterion d a ->
  exists rest,
    elements (FindTrains decodeTrains departureText arrivalText criterion w).1.1
      ++ rest
    ≡ₚ filter (matches d a) (dataset decodeTrains w)
    /\ forall r v,
         r ∈ elements (FindTrains decodeTrains departureText arrivalText
                         criterion w).1.1 ->
         v ∈ rest -> keyLe criterion r v.
Proof.
  intros Hv. rewrite (FindTrains_elements _ _ _ _ _ _ _ Hv).
  set (found := filter (matches d a) (dataset decodeTrains w)).
  exists (drop 3 (SliceStable (lessBy criterion) found)). split.
  - rewrite take_drop. apply insertionSort_perm.
  - intros r v Hr Hrest. apply lessBy_keyLe; [apply Hv|].
    pose proof (insertionSort_ascending (lessBy criterion)
                  (lessBy_asym criterion) (lessBy_negtrans criterion) found)
      as Hs.
    fold (SliceStable (lessBy criterion) found) in Hs.
    rewrite <- (take_drop 3 (SliceStable (lessBy criterion) found)) in Hs.
    by apply (StronglySorted_app_1_elem_of _ _ _ r v) in Hs.
Qed.

(** X3. Whatever the input, [FindTrains] returns at most three records,
    and never a result together with an error. *)
Theorem FindTrains_result_shape departureText arrivalText criterion w :
  (length (elements (FindTrains decodeTrains departureText arrivalText
                       criterion w).1.1) <= 3)%nat
  /\ (is_Some (FindTrains decodeTrains departureText arrivalText criterion w).1.2 ->
      (FindTrains decodeTrains departureText arrivalText criterion w).1.1 = None).
Proof.
  destruct (firstFailing (validationChecks departureText arrivalText criterion))
    as [e|] eqn:Hf.
  - rewrite (FindTrains_invalid _ _ _ _ _ w Hf). simpl. split; [lia|done].
  - apply firstFailing_None in Hf as (d & a & Hv). split.
    + rewrite (FindTrains_elements _ _ _ _ _ _ _ Hv), length_take. lia.
    + rewrite (FindTrains_valid_no_error _ _ _ _ _ _ w Hv). by intros [? [=]].
Qed.

(** X4. The answer depends on the station texts through the identifiers
    they parse to only: two pairs of texts with the same valid identifiers
    give the same answer and leave the same world. *)
Theorem FindTrains_parsed_ids departureText departureText' arrivalText
    arrivalText' criterion d a w :
  stationID departureText = Some d -> stationID departureText' = Some d ->
  stationID arrivalText = Some a -> stationID arrivalText' = Some a ->
  FindTrains decodeTrains departureText arrivalText criterion w
  = FindTrains decodeTrains departureText' arrivalText' criterion w.
Proof.
  intros Hd Hd' Ha Ha'.
  destruct (recognized criterion) eqn:Hc.
  - rewrite (FindTrains_valid _ departureText arrivalText criterion d a),
            (FindTrains_valid _ departureText' arrivalText' criterion d a);
      [done|split_and!; by rewrite ?Hc..].
  - rewrite !(FindTrains_invalid _ _ _ _ errCriteria); [done|..];
      (eapply firstFailing_criteria; [done..|rewrite Hc; exact id]).
Qed.
End EngineFacts.

(** * More on the sort and on the load *)

(** A slice already in order is left as it is. *)
Lemma SliceStable_fixed {A} (less : A -> A -> bool) data :
  (forall x y, less x y = true -> less y x = false) ->
  (forall x y z, less x y = false -> less y z = false -> less x z = false) ->
  StronglySorted (fun a b => less b a = false) data ->
  SliceStable less data = data.
Proof.
  intros Hasym Hneg Hs. symmetry. by apply stable_sort_unique.
Qed.

(** X5. Whatever the criterion, [sortTrainsByAscending] returns the records
    it was given, in some order, prints one line and touches no file; with
    a criterion that is none of the three it returns them in the order it
    got them. *)
Theorem sortTrainsByAscending_permutation trains criteria w :
  (sortTrainsByAscending trains criteria w).1 ≡ₚ trains
  /\ (~ recognized criteria ->
      (sortTrainsByAscending trains criteria w).1 = trains)
  /\ effects (sortTrainsByAscending trains criteria) w
     = [EvPrintln ("Sorting by " +:+ criteria)]
  /\ files (sortTrainsByAscending trains criteria w).2 = files w.
Proof.
  split_and!.
  - unfold sortTrainsByAscending, bind, Println, emit, ret; simpl.
    repeat case_match; try done; unfold SliceStable; apply insertionSort_perm.
  - intros Hno. unfold sortTrainsByAscending, bind, Println, emit, ret; simpl.
    destruct (String.eqb_spec criteria priceCriteria) as [->|_];
      [by destruct Hno|].
    destruct (String.eqb_spec criteria departureTimeCriteria) as [->|_];
      [by destruct Hno|].
    destruct (String.eqb_spec criteria arrivalTimeCriteria) as [->|_];
      [by destruct Hno|].
    done.
  - by apply effects_app.
  - done.
Qed.

(** X6. With a recognized criterion, [sortTrainsByAscending] returns a
    slice that is already in the order of the criterion as it is, and so
    sorting twice gives what sorting once gives. *)
Theorem sortTrainsByAscending_fixed trains criteria w w' :
  recognized criteria ->
  (StronglySorted (keyLe criteria) trains ->
   (sortTrainsByAscending trains criteria w).1 = trains)
  /\ (sortTrainsByAscending (sortTrainsByAscending trains criteria w).1
        criteria w').1
     = (sortTrainsByAscending trains criteria w).1.
Proof.
  intros Hc. rewrite !sortTrainsByAscending_eq by done. simpl. split.
  - intros Hs.
    apply SliceStable_fixed;
      [apply lessBy_asym | apply lessBy_negtrans |].
    eapply StronglySorted_mono; [|exact Hs].
    intros x y. by apply lessBy_keyLe.
  - apply SliceStable_fixed;
      [apply lessBy_asym | apply lessBy_negtrans |].
    apply insertionSort_ascending;
      [apply lessBy_asym | apply lessBy_negtrans].
Qed.

(** X7. [readDataFromJSON] never changes a file. When the file cannot be
    opened it prints the error of [os.Open] (the word open, the path and the
    reason the operating system gave, whichever it is) and returns a slice
    with no record, without reading; when the file is empty it reads it
    and returns a slice with no record, without printing. *)
Theorem readDataFromJSON_no_data decodeTrains path w :
  files (readDataFromJSON decodeTrains path w).2 = files w
  /\ (files w !! path = None ->
      (readDataFromJSON decodeTrains path w).1 = []
      /\ effects (readDataFromJSON decodeTrains path) w
         = [EvOpen path;
            EvPrintln ("open " +:+ path +:+ ": " +:+ openError w path)])
  /\ (files w !! path = Some [] ->
      (readDataFromJSON decodeTrains path w).1 = []
      /\ effects (readDataFromJSON decodeTrains path) w
         = [EvOpen path; EvReadAll path]).
Proof.
  split_and!.
  - apply readDataFromJSON_files.
  - intros Hfile. split.
    + by rewrite readDataFromJSON_eq, Hfile.
    + apply effects_app. rewrite readDataFromJSON_eq, Hfile. simpl.
      by rewrite <- !(assoc_L (++)).
  - intros Hfile. split.
    + by rewrite readDataFromJSON_eq, Hfile.
    + apply effects_app. rewrite readDataFromJSON_eq, Hfile. simpl.
      by rewrite <- !(assoc_L (++)).
Qed.

(** * The station texts that are accepted *)

Lemma digitOf_range c d : digitOf c = Some d -> 0 <= d <= 9.
Proof.
  unfold digitOf. destruct (_ && _) eqn:Hb; [|done]. intros [= <-]. lia.
Qed.

Lemma decimalFrom_ge s n : 0 <= n -> n <= decimalFrom n s.
Proof.
  revert n. induction s as [|c rest IH]; simpl; intros n Hn; [lia|].
  destruct (digitOf c) as [d|] eqn:Hd; simpl.
  - apply digitOf_range in Hd. specialize (IH (n * 10 + d)). lia.
  - specialize (IH (n * 10 + 0)). lia.
Qed.

(** The loop of [ParseUint] succeeds on the texts of digits whose number
    fits 64 bits, and gives that number. *)
Lemma ParseUintFrom_inl s n v :
  0 <= n <= maxUint64 ->
  ParseUintFrom n s = inl v <->
  allDigits s /\ v = decimalFrom n s /\ v <= maxUint64.
Proof.
  revert n. induction s as [|c rest IH]; simpl; intros n Hn.
  - split; [intros [= <-]; split_and!; [done|done|lia]|].
    by intros (_ & -> & _).
  - destruct (digitOf c) as [d|] eqn:Hd; simpl.
    2:{ split; [done|by intros [[] _]]. }
    pose proof (digitOf_range _ _ Hd) as Hrange.
    pose proof (decimalFrom_ge rest (n * 10 + d)) as Hge.
    change (maxUint64 / 10 + 1) with 1844674407370955162.
    unfold maxUint64 in *. change (2 ^ 64 - 1) with 18446744073709551615 in *.
    destruct (Z.leb_spec 1844674407370955162 n) as [Hcut|Hcut].
    { split; [done|]. intros (_ & -> & Hv). lia. }
    destruct (Z.ltb_spec 18446744073709551615 (n * 10 + d)) as [Hover|Hfit].
    { split; [done|]. intros (_ & -> & Hv). lia. }
    apply IH. lia.
Qed.

Lemma allDigits_first c rest :
  allDigits (String c rest) ->
  Ascii.eqb c "+"%char = false /\ Ascii.eqb c "-"%char = false.
Proof.
  simpl. intros [Hc _]%andb_True. apply bool_decide_unpack in Hc as [d Hd].
  split; apply Ascii.eqb_neq; intros ->; by vm_compute in Hd.
Qed.

(** X8. The station texts [FindTrains] accepts are the texts of decimal
    digits, with or without a plus sign before them, that denote a number
    from 1 to 2^63 - 1; the identifier is that number. *)
Theorem stationID_accepts text d :
  stationID text = Some d <->
  exists digits,
    (text = digits \/ text = String "+"%char digits)
    /\ digits <> "" /\ allDigits digits
    /\ decimal digits = d /\ 1 <= d <= 2 ^ 63 - 1.
Proof.
  rewrite stationID_Some. unfold Atoi, ParseInt, ParseUint, decimal. split.
  - intros [Hparse Hd]. destruct text as [|c rest]; [done|].
    set (neg := Ascii.eqb c "-"%char) in *.
    set (body := if Ascii.eqb c "+"%char || neg then rest else String c rest) in *.
    destruct body as [|b body'] eqn:Hbody; [done|].
    destruct (ParseUintFrom 0 (String b body')) as [un|[]] eqn:Hun; [|done..].
    apply ParseUintFrom_inl in Hun as (Hdigits & -> & Hmax);
      [|unfold maxUint64; lia].
    pose proof (decimalFrom_ge (String b body') 0) as Hge.
    change (2 ^ 63) with 9223372036854775808 in *.
    remember (decimalFrom 0 (String b body')) as un eqn:Hun.
    destruct neg eqn:Hneg; cbn [negb andb] in Hparse.
    { destruct (Z.ltb_spec 9223372036854775808 un); [done|].
      injection Hparse as <-. lia. }
    destruct (Z.leb_spec 9223372036854775808 un); [done|].
    injection Hparse as <-.
    exists (String b body'). split_and!; try done; try lia.
    subst body. rewrite orb_false_r in Hbody.
    destruct (Ascii.eqb_spec c "+"%char) as [->|_]; [right|left]; by rewrite Hbody.
  - intros (digits & Htext & Hne & Hdigits & <- & Hd).
    destruct digits as [|b body']; [done|].
    pose proof (allDigits_first _ _ Hdigits) as [Hplus Hminus].
    assert (ParseUintFrom 0 (String b body')
            = inl (decimalFrom 0 (String b body'))) as Hun.
    { apply ParseUintFrom_inl; [unfold maxUint64; lia|].
      split_and!; [done..|unfold maxUint64; lia]. }
    change (2 ^ 63) with 9223372036854775808 in *.
    split; [|lia].
    remember (decimalFrom 0 (String b body')) as un eqn:Hval.
    destruct Htext as [->| ->]; cbv beta iota zeta.
    + rewrite Hplus, Hminus. cbn [orb negb andb]. cbv beta iota.
      rewrite Hun.
      destruct (Z.leb_spec 9223372036854775808 un); [lia|done].
    + change (Ascii.eqb "+" "+") with true. change (Ascii.eqb "+" "-") with false.
      cbn [orb negb andb]. cbv beta iota. rewrite Hun.
      destruct (Z.leb_spec 9223372036854775808 un); [lia|done].
Qed.

(** * The decoding of a time field *)

Lemma TrimRight_cut cutset s :
  allInCutset cutset s -> TrimRight s cutset = "".
Proof.
  induction s as [|c rest IH]; simpl; [done|].
  intros [Hc Hrest]%andb_True. rewrite (IH Hrest).
  by destruct (inCutset cutset c).
Qed.

Lemma TrimRight_app_cut cutset s post :
  allInCutset cutset post -> TrimRight (s +:+ post) cutset = TrimRight s cutset.
Proof.
  intros Hpost. induction s as [|c rest IH]; simpl.
  - by apply TrimRight_cut.
  - by rewrite IH.
Qed.

Lemma TrimRight_app_keep cutset pre s :
  TrimRight s cutset <> "" ->
  TrimRight (pre +:+ s) cutset = pre +:+ TrimRight s cutset.
Proof.
  intros Hs. induction pre as [|c rest IH]; simpl; [done|].
  rewrite IH. destruct (rest +:+ TrimRight s cutset) eqn:Hrest.
  - exfalso. destruct rest; [exact (Hs Hrest)|discriminate Hrest].
  - change (String c rest +:+ TrimRight s cutset)
      with (String c (rest +:+ TrimRight s cutset)).
    by rewrite Hrest.
Qed.

Lemma TrimLeft_app_cut cutset pre s :
  allInCutset cutset pre -> TrimLeft (pre +:+ s) cutset = TrimLeft s cutset.
Proof.
  induction pre as [|c rest IH]; simpl; [done|].
  intros [Hc Hrest]%andb_True. apply Is_true_true in Hc as ->. by apply IH.
Qed.

(** Bytes of the cut set around a text do not change what is left of it. *)
Lemma Trim_wrap cutset pre s post :
  allInCutset cutset pre -> allInCutset cutset post ->
  Trim (pre +:+ s +:+ post) cutset = Trim s cutset.
Proof.
  intros Hpre Hpost. unfold Trim.
  destruct (TrimRight s cutset) as [|k kept] eqn:Hs.
  - assert (TrimRight (pre +:+ s +:+ post) cutset = "") as ->; [|done].
    assert (TrimRight (s +:+ post) cutset = "") as Hsp
      by by rewrite TrimRight_app_cut.
    clear Hs. induction pre as [|c rest IH]; simpl; [done|].
    apply andb_True in Hpre as [Hc Hrest]. rewrite (IH Hrest).
    by apply Is_true_true in Hc as ->.
  - rewrite TrimRight_app_keep.
    + rewrite TrimRight_app_cut, Hs by done. by apply TrimLeft_app_cut.
    + by rewrite TrimRight_app_cut, Hs.
Qed.

Section TimeField.
Variable timeParse : string -> string -> Time + string.

(** X9. A time field that is empty or reads null, with or without quotes
    and backslashes around it, is accepted without an error and leaves the
    time as it was, whatever [time.Parse] would say of it. *)
Theorem CustomTime_null c pre core post :
  allInCutset trimCutset pre -> allInCutset trimCutset post ->
  core = "" \/ core = "null" ->
  CustomTime.UnmarshalJSON timeParse c (pre +:+ core +:+ post) = (c, None).
Proof.
  intros Hpre Hpost Hcore. unfold CustomTime.UnmarshalJSON.
  rewrite Trim_wrap by done. by destruct Hcore as [->| ->].
Qed.

(** X10. The quotes and backslashes around a time field are dropped before
    it is parsed, however many there are; and a field that gives an error
    leaves the time as it was. *)
Theorem CustomTime_quotes c pre s post :
  allInCutset trimCutset pre -> allInCutset trimCutset post ->
  CustomTime.UnmarshalJSON timeParse c (pre +:+ s +:+ post)
  = CustomTime.UnmarshalJSON timeParse c s
  /\ (is_Some (CustomTime.UnmarshalJSON timeParse c s).2 ->
      (CustomTime.UnmarshalJSON timeParse c s).1 = c).
Proof.
  intros Hpre Hpost. unfold CustomTime.UnmarshalJSON. split.
  - by rewrite Trim_wrap.
  - destruct (_ || _); simpl; [done|].
    destruct (timeParse layout (Trim s trimCutset)); simpl;
      [by intros [? [=]]|done].
Qed.
End TimeField.

(** * The query typed on the terminal *)

Lemma splitAfter_line d rest :
  noNewline d ->
  splitAfter "010"%char (d +:+ newline +:+ rest) = (d +:+ newline, rest).
Proof.
  induction d as [|c d IH]; simpl; [done|].
  intros [Hc Hd]%andb_True. apply negb_True, Is_true_false in Hc.
  by rewrite Hc, (IH Hd).
Qed.

Lemma splitAfter_end d :
  noNewline d -> splitAfter "010"%char d = (d, "").
Proof.
  induction d as [|c d IH]; simpl; [done|].
  intros [Hc Hd]%andb_True. apply negb_True, Is_true_false in Hc.
  by rewrite Hc, (IH Hd).
Qed.

Lemma substring_all_but_last d x :
  String.substring 0 (String.length (d +:+ String x "") - 1) (d +:+ String x "")
  = d.
Proof.
  induction d as [|c d IH]; [done|].
  change (String c d +:+ String x "") with (String c (d +:+ String x "")).
  simpl String.length. rewrite Nat.sub_1_r in *. simpl Nat.pred.
  destruct (String.length (d +:+ String x "")) as [|n] eqn:Hlen.
  { by destruct d. }
  simpl in IH. simpl. by rewrite IH.
Qed.

Lemma withoutLast_last d x p :
  withoutLast (d +:+ String x "") p = (Some d, p).
Proof.
  unfold withoutLast. rewrite substring_all_but_last. by destruct d.
Qed.

(** A line ended by a newline is read without it. *)
Lemma read_line {A} d rest out w (k : string -> Proc A) :
  noNewline d ->
  bindP (ReadString "010"%char) (fun line => bindP (withoutLast line) k)
        (mkProcess (d +:+ newline +:+ rest) out w)
  = k d (mkProcess rest out w).
Proof.
  intros Hd. unfold bindP at 1, ReadString. simpl.
  rewrite (splitAfter_line d rest Hd). unfold bindP.
  by rewrite (withoutLast_last d "010"%char).
Qed.

(** When no byte is left the slice expression panics. *)
Lemma read_nothing {A} out w (k : string -> Proc A) :
  bindP (ReadString "010"%char) (fun line => bindP (withoutLast line) k)
        (mkProcess "" out w)
  = (None, mkProcess "" out w).
Proof. done. Qed.

(** A last line that no newline ends loses its last byte. *)
Lemma read_unended {A} d x out w (k : string -> Proc A) :
  noNewline d -> x <> "010"%char ->
  bindP (ReadString "010"%char) (fun line => bindP (withoutLast line) k)
        (mkProcess (d +:+ String x "") out w)
  = k d (mkProcess "" out w).
Proof.
  intros Hd Hx. unfold bindP at 1, ReadString. simpl.
  rewrite splitAfter_end.
  - unfold bindP. by rewrite withoutLast_last.
  - clear -Hd Hx. induction d as [|c d IH]; simpl.
    + apply Ascii.eqb_neq in Hx. by rewrite Hx.
    + simpl in Hd. apply andb_True in Hd as [Hc Hd].
      apply andb_True. auto.
Qed.

Lemma bindP_PrintP {A} text (k : unit -> Proc A) p :
  bindP (PrintP text) k p
  = k tt (mkProcess (stdin p) (stdout p +:+ text) (world p)).
Proof. done. Qed.

Lemma append_assoc (a b c : string) : (a +:+ b) +:+ c = a +:+ b +:+ c.
Proof.
  induction a as [|x a IH]; [done|].
  change (String x a +:+ b) with (String x (a +:+ b)).
  change (String x (a +:+ b) +:+ c) with (String x ((a +:+ b) +:+ c)).
  by rewrite IH.
Qed.

Lemma append_empty_r (a : string) : a +:+ "" = a.
Proof.
  induction a as [|x a IH]; [done|].
  change (String x a +:+ "") with (String x (a +:+ "")). by rewrite IH.
Qed.

(** X11. When the three texts are typed, each on a line ended by a
    newline, [readUserParamsFromTerminal] prints the three prompts and
    returns the three texts without their newlines; it does not panic and
    touches no file. *)
Theorem readUserParams_lines d a c rest p :
  noNewline d -> noNewline a -> noNewline c ->
  stdin p = d +:+ newline +:+ a +:+ newline +:+ c +:+ newline +:+ rest ->
  Query.readUserParamsFromTerminal p
  = (Some (Query.mk d a c), mkProcess rest (stdout p +:+ prompts) (world p)).
Proof.
  intros Hd Ha Hc Hin. unfold Query.readUserParamsFromTerminal.
  rewrite bindP_PrintP, Hin, (read_line d) by done.
  rewrite bindP_PrintP. cbn [stdin stdout world].
  rewrite (read_line a) by done.
  rewrite bindP_PrintP. cbn [stdin stdout world].
  rewrite (read_line c) by done.
  unfold retP, prompts. fold prompt1 prompt2 prompt3.
  by rewrite !append_assoc.
Qed.

(** When the input ends before the third line is started, the slice
    expression panics, after one, two or three prompts. *)
Lemma read_too_few d a p :
  noNewline d -> noNewline a ->
  stdin p = "" \/ stdin p = d +:+ newline
  \/ stdin p = d +:+ newline +:+ a +:+ newline ->
  exists shown,
    Query.readUserParamsFromTerminal p
    = (None, mkProcess "" (stdout p +:+ shown) (world p))
    /\ (shown = prompt1 \/ shown = prompt1 +:+ prompt2 \/ shown = prompts).
Proof.
  intros Hd Ha Hin. unfold Query.readUserParamsFromTerminal.
  rewrite bindP_PrintP. destruct Hin as [Hin|[Hin|Hin]]; rewrite Hin.
  - rewrite read_nothing. exists prompt1. auto.
  - rewrite <- (append_empty_r (d +:+ newline)), append_assoc.
    rewrite (read_line d) by done.
    rewrite bindP_PrintP. cbn [stdin stdout world]. rewrite read_nothing.
    exists (prompt1 +:+ prompt2). split; [by rewrite append_assoc|auto].
  - rewrite <- (append_empty_r (d +:+ newline +:+ a +:+ newline)).
    rewrite !append_assoc.
    rewrite (read_line d) by done.
    rewrite bindP_PrintP. cbn [stdin stdout world].
    rewrite (read_line a) by done.
    rewrite bindP_PrintP. cbn [stdin stdout world]. rewrite read_nothing.
    exists prompts. split; [by rewrite !append_assoc|auto].
Qed.

(** X12. When the input ends before a third line is started (nothing
    typed, or one line, or two), [readUserParamsFromTerminal] panics; and
    when the third line is not ended by a newline, its last byte is lost. *)
Theorem readUserParams_input_ends d a c x p :
  noNewline d -> noNewline a -> noNewline c -> x <> "010"%char ->
  (stdin p = "" \/ stdin p = d +:+ newline
   \/ stdin p = d +:+ newline +:+ a +:+ newline ->
   (Query.readUserParamsFromTerminal p).1 = None)
  /\ (stdin p = d +:+ newline +:+ a +:+ newline +:+ c +:+ String x "" ->
      (Query.readUserParamsFromTerminal p).1 = Some (Query.mk d a c)).
Proof.
  intros Hd Ha Hc Hx. split.
  - intros Hin. destruct (read_too_few d a p) as (shown & -> & _); done.
  - intros Hin. unfold Query.readUserParamsFromTerminal.
    rewrite bindP_PrintP, Hin, (read_line d) by done.
    rewrite bindP_PrintP. cbn [stdin stdout world].
    rewrite (read_line a) by done.
    rewrite bindP_PrintP. cbn [stdin stdout world].
    by rewrite (read_unended c x).
Qed.

(** * The printing of the answer, and [main] *)

Lemma noNewline_app s t : noNewline s -> noNewline t -> noNewline (s +:+ t).
Proof.
  induction s as [|c s IH]; simpl; [done|].
  intros [Hc Hs]%andb_True Ht. apply andb_True. auto.
Qed.

(** No byte that is not a digit is left unseen by [ParseUint]: a text with
    a carriage return at its end does not parse. *)
Lemma ParseUintFrom_carriageReturn s n :
  exists e, ParseUintFrom n (s +:+ carriageReturn) = inr e.
Proof.
  revert n. induction s as [|c s IH]; intros n.
  - by exists ErrSyntax.
  - change (String c s +:+ carriageReturn) with (String c (s +:+ carriageReturn)).
    simpl. destruct (digitOf c) as [d|]; [|by eexists].
    destruct (_ <=? n); [by eexists|].
    destruct (_ <? _); [by eexists|]. apply IH.
Qed.

Lemma stationID_carriageReturn s : stationID (s +:+ carriageReturn) = None.
Proof.
  unfold stationID, Atoi, ParseInt.
  destruct s as [|c s]; [done|].
  change (String c s +:+ carriageReturn) with (String c (s +:+ carriageReturn)).
  cbv beta iota zeta.
  assert (forall body, exists e,
             ParseUint (body +:+ carriageReturn) = inr e) as Hbody.
  { intros body. unfold ParseUint.
    destruct (ParseUintFrom_carriageReturn body 0) as [e He].
    destruct (body +:+ carriageReturn) eqn:Hb; [by destruct body|].
    by exists e. }
  destruct (Ascii.eqb c "+"%char || Ascii.eqb c "-"%char).
  - destruct (Hbody s) as [e ->]. by destruct e.
  - destruct (Hbody (String c s)) as [e He].
    change (String c s +:+ carriageReturn)
      with (String c (s +:+ carriageReturn)) in He.
    rewrite He. by destruct e.
Qed.

Section MainFacts.
Variable decodeTrains : list Byte.byte -> Trains -> Trains.
Variable formatTrain : Train -> string.

Lemma printTrains_eq t p :
  printTrains formatTrain t p
  = (Some tt,
     mkProcess (stdin p) (stdout p +:+ trainLines formatTrain t) (world p)).
Proof.
  revert p. induction t as [|v rest IH]; intros p; simpl.
  - unfold retP. rewrite append_empty_r. by destruct p.
  - unfold bindP, printTrain, PrintP. rewrite IH. cbn [stdin stdout world].
    by rewrite !append_assoc.
Qed.

(** X13. [printFindingResult] prints one line for each record of the
    slice, in their order, and the line that no train was found when the
    slice is nil or empty; it does not panic, reads nothing and touches no
    file. *)
Theorem printFindingResult_output t p :
  printFindingResult formatTrain t p
  = (Some tt,
     mkProcess (stdin p)
       (stdout p +:+ match elements t with
                     | [] => "Can't find trains on request. Please, try again."
                             +:+ newline
                     | found => trainLines formatTrain found
                     end)
       (world p)).
Proof.
  unfold printFindingResult, minLen.
  destruct (elements t) as [|v rest] eqn:Ht.
  - done.
  - destruct (Z.leb_spec 1 (Z.of_nat (length (v :: rest)))) as [_|Hl];
      [|simpl in Hl; lia].
    apply printTrains_eq.
Qed.

(** [main] once the three texts are typed: the search on them, with what it
    prints, and then the answer. *)
Lemma main_typed d a c rest p :
  noNewline d -> noNewline a -> noNewline c ->
  stdin p = d +:+ newline +:+ a +:+ newline +:+ c +:+ newline +:+ rest ->
  main decodeTrains formatTrain p
  = (Some tt,
     mkProcess rest
       (stdout p +:+ prompts
        +:+ printed (effects (FindTrains decodeTrains d a c) (world p))
        +:+ answerText formatTrain (FindTrains decodeTrains d a c (world p)).1)
       (FindTrains decodeTrains d a c (world p)).2).
Proof.
  intros Hd Ha Hc Hin. unfold main.
  assert (Query.readUserParamsFromTerminal p
          = (Some (Query.mk d a c),
             mkProcess rest (stdout p +:+ prompts) (world p))) as Hread.
  { unfold Query.readUserParamsFromTerminal.
    rewrite bindP_PrintP, Hin, (read_line d) by done.
    rewrite bindP_PrintP. cbn [stdin stdout world].
    rewrite (read_line a) by done.
    rewrite bindP_PrintP. cbn [stdin stdout world].
    rewrite (read_line c) by done.
    unfold retP, prompts. fold prompt1 prompt2 prompt3.
    by rewrite !append_assoc. }
  unfold bindP at 1. rewrite Hread.
  unfold bindP, runIO. cbn [stdin stdout world Query.DepartureStationID
                             Query.ArrivalStationID Query.Criteria].
  destruct (FindTrains decodeTrains d a c (world p)) as [[result err] w] eqn:Hfind.
  unfold answerText. cbn [fst snd].
  destruct err as [e|].
  - unfold PrintP. cbn [stdin stdout world]. by rewrite !append_assoc.
  - unfold printFindingResult, minLen.
    destruct (elements result) as [|v found] eqn:Hres.
    + change (1 <=? Z.of_nat (@length Train [])) with false. cbv iota.
      unfold PrintlnP, PrintP. cbn [stdin stdout world].
      by rewrite !append_assoc.
    + destruct (Z.leb_spec 1 (Z.of_nat (length (v :: found)))) as [_|Hl];
        [|simpl in Hl; lia].
      rewrite printTrains_eq. cbn [stdin stdout world].
      by rewrite !append_assoc.
Qed.
(** X14. When the three texts are typed and one of the five checks fails,
    [main] prints the prompts and then the error of the first failing
    check on a line of its own, and nothing else; it opens no file. *)
Theorem main_reports_error d a c rest e p :
  noNewline d -> noNewline a -> noNewline c ->
  stdin p = d +:+ newline +:+ a +:+ newline +:+ c +:+ newline +:+ rest ->
  firstFailing (validationChecks d a c) = Some e ->
  main decodeTrains formatTrain p
  = (Some tt,
     mkProcess rest
       (stdout p +:+ prompts +:+ "Error: " +:+ Error e +:+ newline)
       (world p)).
Proof.
  intros Hd Ha Hc Hin Hf. rewrite (main_typed d a c rest) by done.
  rewrite (effects_app _ (world p) []).
  - by rewrite (FindTrains_invalid _ _ _ _ _ (world p) Hf).
  - rewrite (FindTrains_invalid _ _ _ _ _ (world p) Hf). simpl.
    by rewrite app_nil_r.
Qed.

(** X15. When a valid query is typed, [main] prints the prompts, then,
    when the dataset file cannot be opened, the error of [os.Open] (the
    word open, the path and the reason the operating system gave), then either
    the line that no train was found, or the line of the sort followed by
    one line for each of the at most three records found; it prints no
    error of its own. *)
Theorem main_answers d a c rest departureID arrivalID p :
  noNewline d -> noNewline a -> noNewline c ->
  stdin p = d +:+ newline +:+ a +:+ newline +:+ c +:+ newline +:+ rest ->
  validQuery d a c departureID arrivalID ->
  let found :=
    take 3 (SliceStable (lessBy c)
              (filter (matches departureID arrivalID)
                      (dataset decodeTrains (world p)))) in
  (main decodeTrains formatTrain p).1 = Some tt
  /\ stdout (main decodeTrains formatTrain p).2
     = stdout p +:+ prompts
       +:+ match files (world p) !! dataPath with
           | Some _ => ""
           | None =>
               "open " +:+ dataPath +:+ ": "
               +:+ openError (world p) dataPath +:+ newline
           end
       +:+ match found with
           | [] => "Can't find trains on request. Please, try again."
                   +:+ newline
           | _ => "Sorting by " +:+ c +:+ newline
                  +:+ trainLines formatTrain found
           end.
Proof.
  intros Hd Ha Hc Hin Hv found. rewrite (main_typed d a c rest) by done.
  split; [done|]. cbn [snd stdout].
  rewrite (FindTrains_valid_effects _ _ _ _ _ _ _ Hv).
  unfold answerText.
  rewrite (FindTrains_valid_no_error _ _ _ _ _ _ _ Hv).
  rewrite (FindTrains_elements _ _ _ _ _ _ _ Hv). fold found.
  assert (found = [] <->
          filter (matches departureID arrivalID)
                 (dataset decodeTrains (world p)) = []) as Hnone.
  { unfold found. split; [|by intros ->].
    intros Hnil. apply (f_equal length) in Hnil.
    rewrite length_take in Hnil. unfold SliceStable in Hnil.
    rewrite insertionSort_length in Hnil.
    destruct (filter _ _); [done|simpl in Hnil; lia]. }
  destruct (files (world p) !! dataPath) as [content|];
    (destruct found as [|v more];
     [rewrite (proj1 Hnone eq_refl); simpl; by rewrite ?append_empty_r
     |destruct (filter _ _) as [|v' more'];
      [by (discriminate (proj2 Hnone eq_refl))|]]).
  - simpl printed. by rewrite ?append_assoc, ?append_empty_r.
  - simpl printed. by rewrite ?append_assoc, ?append_empty_r.
Qed.

(** X16. When the lines typed end with a carriage return before the
    newline, [main] reports a bad departure station whatever the three
    texts are, and opens no file. *)
Theorem main_carriage_return d a c rest p :
  noNewline d -> noNewline a -> noNewline c ->
  stdin p = (d +:+ carriageReturn) +:+ newline
            +:+ (a +:+ carriageReturn) +:+ newline
            +:+ (c +:+ carriageReturn) +:+ newline +:+ rest ->
  main decodeTrains formatTrain p
  = (Some tt,
     mkProcess rest
       (stdout p +:+ prompts +:+ "Error: " +:+ Error errBadDepStation
        +:+ newline)
       (world p)).
Proof.
  intros Hd Ha Hc Hin.
  assert (firstFailing (validationChecks (d +:+ carriageReturn)
                          (a +:+ carriageReturn) (c +:+ carriageReturn))
          = Some errBadDepStation) as Hf.
  { unfold validationChecks, firstFailing.
    rewrite !stationID_carriageReturn.
    assert (forall s, String.eqb (s +:+ carriageReturn) "" = false) as Hne
      by by intros [|? ?].
    by rewrite !Hne. }
  rewrite (main_typed (d +:+ carriageReturn) (a +:+ carriageReturn)
             (c +:+ carriageReturn) rest)
    by (done || by apply noNewline_app).
  rewrite (effects_app _ (world p) []).
  - by rewrite (FindTrains_invalid _ _ _ _ _ (world p) Hf).
  - rewrite (FindTrains_invalid _ _ _ _ _ (world p) Hf). simpl.
    by rewrite app_nil_r.
Qed.

(** X17. When the input ends before a third line is started, [main]
    panics before any search: no file is opened and nothing but prompts is
    printed. *)
Theorem main_input_ends d a p :
  noNewline d -> noNewline a ->
  stdin p = "" \/ stdin p = d +:+ newline
  \/ stdin p = d +:+ newline +:+ a +:+ newline ->
  (main decodeTrains formatTrain p).1 = None
  /\ world (main decodeTrains formatTrain p).2 = world p
  /\ exists shown,
       stdout (main decodeTrains formatTrain p).2 = stdout p +:+ shown
       /\ (shown = prompt1 \/ shown = prompt1 +:+ prompt2 \/ shown = prompts).
Proof.
  intros Hd Ha Hin.
  destruct (read_too_few d a p) as (shown & Hread & Hshown); [done..|].
  unfold main, bindP. rewrite Hread. cbn [fst snd world stdout].
  split_and!; [done..|]. by exists shown.
Qed.
End MainFacts.

(** * The further facts on the sample world *)

Lemma FindTrains_returns_least_witness :
  exists rest,
    elements (FindTrains sampleDecode "1902" "1929" "price" sampleWorld).1.1
      ++ rest
    ≡ₚ filter (matches 1902 1929) (dataset sampleDecode sampleWorld)
    /\ forall r v,
         r ∈ elements (FindTrains sampleDecode "1902" "1929" "price"
                         sampleWorld).1.1 ->
         v ∈ rest -> keyLe "price" r v.
Proof.
  apply (FindTrains_returns_least sampleDecode "1902" "1929" "price"
           1902 1929 sampleWorld).
  unfold validQuery. split_and!; [reflexivity..|exact I].
Defined.

Lemma FindTrains_parsed_ids_witness :
  FindTrains sampleDecode "+1902" "1929" "price" sampleWorld
  = FindTrains sampleDecode "01902" "+01929" "price" sampleWorld.
Proof.
  apply (FindTrains_parsed_ids sampleDecode "+1902" "01902" "1929" "+01929"
           "price" 1902 1929 sampleWorld); reflexivity.
Defined.

Lemma sortTrainsByAscending_fixed_witness :
  (StronglySorted (keyLe "price") sampleTrains ->
   (sortTrainsByAscending sampleTrains "price" sampleWorld).1 = sampleTrains)
  /\ (sortTrainsByAscending
        (sortTrainsByAscending sampleTrains "price" sampleWorld).1
        "price" noFileWorld).1
     = (sortTrainsByAscending sampleTrains "price" sampleWorld).1.
Proof.
  apply (sortTrainsByAscending_fixed sampleTrains "price" sampleWorld
           noFileWorld).
  exact I.
Defined.

Lemma CustomTime_null_witness :
  CustomTime.UnmarshalJSON sampleParse (clock 7 30)
    (String quoteChar "" +:+ "null" +:+ String quoteChar "")
  = (clock 7 30, None).
Proof.
  apply (CustomTime_null sampleParse (clock 7 30)
           (String quoteChar "") "null" (String quoteChar "")).
  - exact I.
  - exact I.
  - right. reflexivity.
Defined.

Lemma CustomTime_quotes_witness :
  CustomTime.UnmarshalJSON sampleParse (clock 7 30)
    (String quoteChar "" +:+ "10:25:00" +:+ String quoteChar "")
  = CustomTime.UnmarshalJSON sampleParse (clock 7 30) "10:25:00"
  /\ (is_Some (CustomTime.UnmarshalJSON sampleParse (clock 7 30) "10:25:00").2 ->
      (CustomTime.UnmarshalJSON sampleParse (clock 7 30) "10:25:00").1
      = clock 7 30).
Proof.
  apply (CustomTime_quotes sampleParse (clock 7 30)
           (String quoteChar "") "10:25:00" (String quoteChar "")); exact I.
Defined.

Lemma readUserParams_lines_witness :
  Query.readUserParamsFromTerminal
    (mkProcess ("1902" +:+ newline +:+ "1929" +:+ newline +:+ "price"
                +:+ newline +:+ "")
               "" sampleWorld)
  = (Some (Query.mk "1902" "1929" "price"),
     mkProcess "" ("" +:+ prompts) sampleWorld).
Proof.
  apply (readUserParams_lines "1902" "1929" "price" ""
           (mkProcess ("1902" +:+ newline +:+ "1929" +:+ newline +:+ "price"
                       +:+ newline +:+ "")
                      "" sampleWorld)); (exact I || reflexivity).
Defined.

Lemma readUserParams_input_ends_witness :
  (Query.readUserParamsFromTerminal
     (mkProcess ("1902" +:+ newline) "" sampleWorld)).1 = None
  /\ (Query.readUserParamsFromTerminal
        (mkProcess ("1902" +:+ newline +:+ "1929" +:+ newline +:+ "price")
                   "" sampleWorld)).1
     = Some (Query.mk "1902" "1929" "pric").
Proof.
  split.
  - apply (proj1 (readUserParams_input_ends "1902" "1929" "pric" "e"%char
                    (mkProcess ("1902" +:+ newline) "" sampleWorld)
                    I I I ltac:(discriminate))).
    right. left. reflexivity.
  - apply (proj2 (readUserParams_input_ends "1902" "1929" "pric" "e"%char
                    (mkProcess ("1902" +:+ newline +:+ "1929" +:+ newline
                                +:+ "price") "" sampleWorld)
                    I I I ltac:(discriminate))).
    reflexivity.
Defined.

Lemma main_reports_error_witness :
  main sampleDecode sampleFormat
    (mkProcess ("1902" +:+ newline +:+ "1929" +:+ newline +:+ "awef"
                +:+ newline +:+ "")
               "" sampleWorld)
  = (Some tt,
     mkProcess ""
       ("" +:+ prompts +:+ "Error: " +:+ Error errCriteria +:+ newline)
       sampleWorld).
Proof.
  apply (main_reports_error sampleDecode sampleFormat "1902" "1929" "awef" ""
           errCriteria
           (mkProcess ("1902" +:+ newline +:+ "1929" +:+ newline +:+ "awef"
                       +:+ newline +:+ "")
                      "" sampleWorld)); (exact I || reflexivity).
Defined.

Lemma main_answers_witness :
  let p := mkProcess ("1902" +:+ newline +:+ "1929" +:+ newline +:+ "price"
                      +:+ newline +:+ "")
                     "" sampleWorld in
  let found :=
    take 3 (SliceStable (lessBy "price")
              (filter (matches 1902 1929)
                      (dataset sampleDecode (world p)))) in
  (main sampleDecode sampleFormat p).1 = Some tt
  /\ stdout (main sampleDecode sampleFormat p).2
     = stdout p +:+ prompts
       +:+ match files (world p) !! dataPath with
           | Some _ => ""
           | None =>
               "open " +:+ dataPath +:+ ": "
               +:+ openError (world p) dataPath +:+ newline
           end
       +:+ match found with
           | [] => "Can't find trains on request. Please, try again."
                   +:+ newline
           | _ => "Sorting by " +:+ "price" +:+ newline
                  +:+ trainLines sampleFormat found
           end.
Proof.
  apply (main_answers sampleDecode sampleFormat "1902" "1929" "price" ""
           1902 1929
           (mkProcess ("1902" +:+ newline +:+ "1929" +:+ newline +:+ "price"
                       +:+ newline +:+ "")
                      "" sampleWorld)); try (exact I || reflexivity).
  unfold validQuery. split_and!; [reflexivity..|exact I].
Defined.

Lemma main_carriage_return_witness :
  main sampleDecode sampleFormat
    (mkProcess (("1902" +:+ carriageReturn) +:+ newline
                +:+ ("1929" +:+ carriageReturn) +:+ newline
                +:+ ("price" +:+ carriageReturn) +:+ newline +:+ "")
               "" sampleWorld)
  = (Some tt,
     mkProcess ""
       ("" +:+ prompts +:+ "Error: " +:+ Error errBadDepStation +:+ newline)
       sampleWorld).
Proof.
  apply (main_carriage_return sampleDecode sampleFormat "1902" "1929" "price" ""
           (mkProcess (("1902" +:+ carriageReturn) +:+ newline
                       +:+ ("1929" +:+ carriageReturn) +:+ newline
                       +:+ ("price" +:+ carriageReturn) +:+ newline +:+ "")
                      "" sampleWorld)); (exact I || reflexivity).
Defined.

Lemma main_input_ends_witness :
  let p := mkProcess ("1902" +:+ newline +:+ "1929" +:+ newline) "" sampleWorld in
  (main sampleDecode sampleFormat p).1 = None
  /\ world (main sampleDecode sampleFormat p).2 = world p
  /\ exists shown,
       stdout (main sampleDecode sampleFormat p).2 = stdout p +:+ shown
       /\ (shown = prompt1 \/ shown = prompt1 +:+ prompt2 \/ shown = prompts).
Proof.
  apply (main_input_ends sampleDecode sampleFormat "1902" "1929"
           (mkProcess ("1902" +:+ newline +:+ "1929" +:+ newline) ""
                      sampleWorld)); try exact I.
  right. right. reflexivity.
Defined.
